(** * Validation service of the restaking price oracle

    A shallow embedding of [Validation_Service/src/monitor.service.js]:
    price reconciliation, the position state check, attestation signing and
    verification, and the orchestrator [validatePositionMovement].

    JavaScript numbers are IEEE 754 binary64 values, so they are modelled by
    Rocq's primitive floats, whose subtraction, division, absolute value and
    comparisons are the very operations the engine performs.  Library
    functions and outside services are fields of a [Platform]; every call to a
    service is recorded in an event trace. *)

Set Warnings "-inexact-float,-register-all".
From Stdlib Require Import ZArith String List Bool Floats DecimalString Lia.
Import ListNotations.
Local Open Scope string_scope.

(** ** JavaScript values, errors and promises *)

(** What a [throw] carries: an [Error] object, of which the code reads
    [message] only. *)
Record error := Error { message : string }.

Inductive outcome (A : Type) :=
| Return (a : A)
| Throw (e : error).
Arguments Return {A} a.
Arguments Throw {A} e.

Inductive value :=
| VUndefined
| VNull
| VBool (b : bool)
| VNum (x : float)
| VBigInt (z : Z)
| VStr (s : string)
| VObj (fields : list (string * value))
| VPromise (settled : outcome value).

(** ToBoolean. *)
Definition to_boolean (v : value) : bool :=
  match v with
  | VUndefined | VNull => false
  | VBool b => b
  | VNum x => negb (x =? 0)%float && negb (PrimFloat.is_nan x)
  | VBigInt z => negb (z =? 0)%Z
  | VStr s => negb (s =? EmptyString)
  | VObj _ | VPromise _ => true
  end.

Fixpoint lookup (k : string) (fields : list (string * value)) : value :=
  match fields with
  | [] => VUndefined
  | (k', v) :: rest => if k' =? k then v else lookup k rest
  end.

Fixpoint has_key (k : string) (fields : list (string * value)) : bool :=
  match fields with
  | [] => false
  | (k', _) :: rest => (k' =? k) || has_key k rest
  end.

(** [o.k = v]: an existing key keeps its place, a new one goes last. *)
Fixpoint assign (k : string) (v : value) (fields : list (string * value))
  : list (string * value) :=
  match fields with
  | [] => [(k, v)]
  | (k', v') :: rest =>
      if k' =? k then (k, v) :: rest else (k', v') :: assign k v rest
  end.

Definition set_prop (k : string) (v : value) (o : value) : value :=
  match o with
  | VObj fields => VObj (assign k v fields)
  | _ => o
  end.

Definition has_prop (k : string) (o : value) : bool :=
  match o with
  | VObj fields => has_key k fields
  | _ => false
  end.

Definition TypeError_read (k what : string) : error :=
  Error ("Cannot read properties of " ++ what ++ " (reading '" ++ k ++ "')").

(** [o.k] for a data key [k]: reading from [undefined] or [null] throws; an
    object answers from its own fields; a promise has no own data fields (its
    prototype holds methods only), neither has a primitive, so the answer is
    [undefined]. *)
Definition get_prop (k : string) (o : value) : outcome value :=
  match o with
  | VUndefined => Throw (TypeError_read k "undefined")
  | VNull => Throw (TypeError_read k "null")
  | VObj fields => Return (lookup k fields)
  | _ => Return VUndefined
  end.

(** A constant initialised by [process.env.X || d] with a numeric default:
    the text of the variable when it is set and not empty, else the number. *)
Inductive setting :=
| FromEnv (s : string)
| Default (x : float).

Definition env_or (e : option string) (d : float) : setting :=
  match e with
  | Some s => if s =? EmptyString then Default d else FromEnv s
  | None => Default d
  end.

Definition setting_value (c : setting) : value :=
  match c with
  | FromEnv s => VStr s
  | Default x => VNum x
  end.

(** [process.env.X] as a value. *)
Definition env_value (e : option string) : value :=
  match e with
  | Some s => VStr s
  | None => VUndefined
  end.

(** ** Kinds of numbers *)

(** A binary64 datum that is zero, finite or infinite, with sign bit clear. *)
Definition unsigned_number (x : spec_float) : Prop :=
  match x with
  | S754_zero false | S754_infinity false | S754_finite false _ _ => True
  | _ => False
  end.

(** A number strictly between 0 and [Infinity]. *)
Definition positive_finite (x : float) : bool :=
  (0 <? x)%float && (x <? infinity)%float.

(** ** Positions *)

Record Position := {
  id : string;
  owner : string;
  lowerTick : float;
  upperTick : float;
  isRestaked : bool;
  lastActiveTimestamp : float
}.

(** ** Calls that leave the process *)

Inductive event :=
| EConsole (level : string) (args : list value)
| EDateNow
| ELatestRoundData (aggregator : string)
| ENewWallet (key : string)
| EKeccak (values : list value)
| ESignMessage (digest : string)
| EVerifyMessage (digest : string) (signature : value)
| EAxiosPost (url : string) (body : value)
| EStoreAttestation (attestation : value)
| EIsApprovedValidator (address : string).

Definition trace := list event.

(** ** The platform: engine built-ins, libraries, environment and services *)

Class Platform := {
  (* engine *)
  Math_pow : float -> float -> float;
  Math_log : float -> float;
  Math_floor : float -> float;
  Number_toString : float -> string;
  String_toNumber : string -> float;
  parseFloat : string -> float;
  (* [Date.now()], as a function of the number of calls made so far *)
  Date_now : nat -> float;
  (* process.env *)
  env_VALIDATION_THRESHOLD : option string;
  env_POSITION_INACTIVITY_DAYS : option string;
  env_VALIDATION_API_URL : option string;
  env_VALIDATOR_ADDRESS : option string;
  env_VALIDATOR_PRIVATE_KEY : option string;
  env_CHAINLINK_ETH_USD_ADDRESS : option string;
  (* ethers *)
  latestRoundData : string -> outcome Z;
  formatUnits : Z -> Z -> string;
  parseUnits : string -> Z -> outcome Z;
  solidityPackedKeccak256 : list string -> list value -> outcome string;
  Wallet : string -> outcome unit;
  signMessage : string -> string -> outcome string;
  verifyMessage : string -> value -> outcome string;
  (* axios *)
  axios_post : string -> value -> outcome value;
  (* dal.service *)
  storeAttestation : value -> outcome unit;
  isApprovedValidator : string -> outcome value
}.

(** ** Computations: an event trace and exceptions *)

Definition M (A : Type) : Type := trace -> outcome A * trace.

Definition ret {A} (a : A) : M A := fun tr => (Return a, tr).

Definition throw {A} (e : error) : M A := fun tr => (Throw e, tr).

Definition bind {A B} (m : M A) (k : A -> M B) : M B :=
  fun tr =>
    match m tr with
    | (Return a, tr') => k a tr'
    | (Throw e, tr') => (Throw e, tr')
    end.

(** [try { body } catch (err) { handler }] *)
Definition try_catch {A} (body : M A) (handler : error -> M A) : M A :=
  fun tr =>
    match body tr with
    | (Return a, tr') => (Return a, tr')
    | (Throw e, tr') => handler e tr'
    end.

Definition emit (e : event) : M unit := fun tr => (Return tt, (tr ++ [e])%list).

(** The result of a call, thrown or returned. *)
Definition lift {A} (o : outcome A) : M A := fun tr => (o, tr).

(** A call to a service: the event, then its answer. *)
Definition call {A} (e : event) (answer : outcome A) : M A :=
  fun tr => (answer, (tr ++ [e])%list).

Declare Scope js_scope.
Delimit Scope js_scope with js.
Notation "x <- m ;; k" := (bind m (fun x => k))
  (at level 61, m at next level, right associativity) : js_scope.
Notation "m ;;; k" := (bind m (fun _ => k))
  (at level 61, right associativity) : js_scope.
Local Open Scope js_scope.

Definition console (level : string) (args : list value) : M unit :=
  emit (EConsole level args).

(** [await v] *)
Definition await (v : value) : M value :=
  match v with
  | VPromise settled => lift settled
  | _ => ret v
  end.

Fixpoint clock_reads (tr : trace) : nat :=
  match tr with
  | [] => 0
  | EDateNow :: rest => S (clock_reads rest)
  | _ :: rest => clock_reads rest
  end.

(** ** The service *)

Section Service.

Context {P : Platform}.

(** [Date.now()] *)
Definition now : M float :=
  fun tr => (Return (Date_now (clock_reads tr)), (tr ++ [EDateNow])%list).

(** ToNumber and ToString of a constant read from the environment. *)
Definition to_number (c : setting) : float :=
  match c with
  | FromEnv s => String_toNumber s
  | Default x => x
  end.

Definition to_string (c : setting) : string :=
  match c with
  | FromEnv s => s
  | Default x => Number_toString x
  end.

(** [v.toString()], where [expr] is the text of the expression [v] was read
    from, as the engine quotes it when the method is not callable. *)
Definition toString_method (expr : string) (v : value) : outcome string :=
  match v with
  | VUndefined => Throw (TypeError_read "toString" "undefined")
  | VNull => Throw (TypeError_read "toString" "null")
  | VBool b => Return (if b then "true" else "false")
  | VNum x => Return (Number_toString x)
  | VBigInt z => Return (NilZero.string_of_int (Z.to_int z))
  | VStr s => Return s
  | VObj fields =>
      if has_key "toString" fields
      then Throw (Error (expr ++ ".toString is not a function"))
      else Return "[object Object]"
  | VPromise _ => Return "[object Promise]"
  end.

Definition VALIDATION_THRESHOLD : setting :=
  env_or env_VALIDATION_THRESHOLD 0.05.

Definition POSITION_INACTIVITY_DAYS : setting :=
  env_or env_POSITION_INACTIVITY_DAYS 7.

Definition VALIDATION_API_URL : value :=
  match env_VALIDATION_API_URL with
  | Some s => if s =? EmptyString then VNull else VStr s
  | None => VNull
  end.

Definition tickToPrice (tick : float) : float := Math_pow 1.0001 tick.

Definition priceToTick (price : float) : float :=
  Math_floor (Math_log price / Math_log 1.0001).

(** The relative difference of the two prices, on the second one. *)
Definition priceDiff (binancePrice chainlinkPrice : float) : float :=
  abs (binancePrice - chainlinkPrice) / chainlinkPrice.

(** The statements of [validatePrices]; [d > t] on numbers is [t <? d]. *)
Definition validatePrices_body (binancePrice chainlinkPrice : float) : value :=
  let priceDiff := priceDiff binancePrice chainlinkPrice in
  if (to_number VALIDATION_THRESHOLD <? priceDiff)%float then
    VObj [("success", VBool false);
          ("details", VObj [("binancePrice", VNum binancePrice);
                            ("chainlinkPrice", VNum chainlinkPrice);
                            ("difference", VNum priceDiff);
                            ("threshold", setting_value VALIDATION_THRESHOLD)])]
  else VObj [("success", VBool true)].

(** [validatePrices] is declared [async]: a call gives a promise, here always
    fulfilled since the body throws nothing and awaits nothing. *)
Definition validatePrices (binancePrice chainlinkPrice : float) : value :=
  VPromise (Return (validatePrices_body binancePrice chainlinkPrice)).

Definition success_result : value := VObj [("success", VBool true)].

Definition failure (details : list (string * value)) : value :=
  VObj [("success", VBool false); ("details", VObj details)].

Definition validatePositionState
    (position : Position) (action : string) (currentPrice : float) : M value :=
  let lowerPrice := tickToPrice (lowerTick position) in
  let upperPrice := tickToPrice (upperTick position) in
  let isActive :=
    (lowerPrice <=? currentPrice)%float && (currentPrice <=? upperPrice)%float in
  t <- now ;;
  let currentTimestamp := Math_floor (t / 1000) in
  let inactiveDuration :=
    (currentTimestamp - lastActiveTimestamp position)%float in
  let inactivityThreshold :=
    (to_number POSITION_INACTIVITY_DAYS * 24 * 60 * 60)%float in
  if action =? "restake" then
    if isActive then
      ret (failure
        [("reason", VStr "Position is currently active and cannot be restaked");
         ("currentPrice", VNum currentPrice);
         ("priceRange",
          VStr (Number_toString lowerPrice ++ "-" ++ Number_toString upperPrice))])
    else if (inactiveDuration <? inactivityThreshold)%float then
      ret (failure
        [("reason",
          VStr "Position has not been inactive long enough to be restaked");
         ("inactiveDuration",
          VStr (Number_toString (Math_floor (inactiveDuration / 86400))
                ++ " days"));
         ("required", VStr (to_string POSITION_INACTIVITY_DAYS ++ " days"))])
    else if isRestaked position then
      ret (failure [("reason", VStr "Position is already restaked")])
    else ret success_result
  else if action =? "returnToPool" then
    if negb isActive then
      ret (failure
        [("reason", VStr "Position is not active and should remain restaked");
         ("currentPrice", VNum currentPrice);
         ("priceRange",
          VStr (Number_toString lowerPrice ++ "-" ++ Number_toString upperPrice))])
    else if negb (isRestaked position) then
      ret (failure [("reason", VStr "Position is not currently restaked")])
    else ret success_result
  else ret success_result.

Definition attestation_types : list string :=
  ["string"; "bytes32"; "address"; "string"; "uint256"; "uint256"].

(** The digest both the signer and the verifier compute: the price goes
    through [toString] and [parseUnits(., 18)], then the packed hash. *)
Definition messageHash
    (positionId owner action timestamp : value) (price : string) : M string :=
  units <- lift (parseUnits price 18) ;;
  let values := [VStr "RESTAKING_ATTESTATION"; positionId; owner; action;
                 timestamp; VBigInt units] in
  call (EKeccak values) (solidityPackedKeccak256 attestation_types values).

(** "Create the attestation data" *)
Definition attestationData_new
    (position : Position) (action : string) (currentPrice : float)
    (timestamp : float) : value :=
  VObj [("positionId", VStr (id position));
        ("owner", VStr (owner position));
        ("action", VStr action);
        ("timestamp", VNum timestamp);
        ("priceAtValidation", VNum currentPrice);
        ("validatorAddress", env_value env_VALIDATOR_ADDRESS);
        ("validationDetails",
         VObj [("lowerTick", VNum (lowerTick position));
               ("upperTick", VNum (upperTick position));
               ("isRestaked", VBool (isRestaked position));
               ("lastActiveTimestamp", VNum (lastActiveTimestamp position))])].

(** "Sign the attestation if we have a validator private key" *)
Definition sign_attestation (attestationData : value) : M value :=
  match env_VALIDATOR_PRIVATE_KEY with
  | Some key =>
      if key =? EmptyString then ret attestationData
      else
        call (ENewWallet key) (Wallet key) ;;;
        positionId <- lift (get_prop "positionId" attestationData) ;;
        owner <- lift (get_prop "owner" attestationData) ;;
        action <- lift (get_prop "action" attestationData) ;;
        timestamp <- lift (get_prop "timestamp" attestationData) ;;
        priceAtValidation <-
          lift (get_prop "priceAtValidation" attestationData) ;;
        price <- lift (toString_method "attestationData.priceAtValidation"
                         priceAtValidation) ;;
        digest <- messageHash positionId owner action timestamp price ;;
        signature <- call (ESignMessage digest) (signMessage key digest) ;;
        ret (set_prop "signature" (VStr signature) attestationData)
  | None => ret attestationData
  end.

(** "Optionally submit to external validation API" *)
Definition submit_external (attestationData : value) : M value :=
  match VALIDATION_API_URL with
  | VStr url =>
      try_catch
        (response <- call (EAxiosPost url attestationData)
                       (axios_post url attestationData) ;;
         data <- lift (get_prop "data" response) ;;
         ret (set_prop "externalValidation" data attestationData))
        (fun err =>
           console "warn" [VStr "Failed to get external validation:";
                           VStr (message err)] ;;;
           ret attestationData)
  | _ => ret attestationData
  end.

Definition generateAttestation
    (position : Position) (action : string) (currentPrice : float) : M value :=
  t <- now ;;
  let attestationData :=
    attestationData_new position action currentPrice (Math_floor (t / 1000)) in
  attestationData <- sign_attestation attestationData ;;
  attestationData <- submit_external attestationData ;;
  call (EStoreAttestation attestationData) (storeAttestation attestationData) ;;;
  ret attestationData.

Definition default_aggregator : string :=
  "0x5f4eC3Df9cbd43714FE2740f5E3616155c5b8419".

Definition aggregatorAddress : string :=
  match env_CHAINLINK_ETH_USD_ADDRESS with
  | Some s => if s =? EmptyString then default_aggregator else s
  | None => default_aggregator
  end.

Definition getChainlinkPrice : M float :=
  try_catch
    (answer <- call (ELatestRoundData aggregatorAddress)
                 (latestRoundData aggregatorAddress) ;;
     ret (parseFloat (formatUnits answer 8)))
    (fun err =>
       console "error" [VStr "Error fetching Chainlink price:";
                        VStr (message err)] ;;;
       throw err).

(** The [try] block of [validatePositionMovement] from the test of
    [priceValid] on. *)
Definition validatePositionMovement_checks
    (priceValid : value)
    (position : Position) (action : string) (currentPrice : float) : M value :=
  priceValid_success <- lift (get_prop "success" priceValid) ;;
  if negb (to_boolean priceValid_success) then
    details <- lift (get_prop "details" priceValid) ;;
    ret (VObj [("success", VBool false);
               ("reason", VStr "Price validation failed");
               ("details", details)])
  else
    positionValid <- validatePositionState position action currentPrice ;;
    positionValid_success <- lift (get_prop "success" positionValid) ;;
    if negb (to_boolean positionValid_success) then
      details <- lift (get_prop "details" positionValid) ;;
      ret (VObj [("success", VBool false);
                 ("reason", VStr "Position state invalid for requested action");
                 ("details", details)])
    else
      attestation <- generateAttestation position action currentPrice ;;
      ret (VObj [("success", VBool true); ("attestation", attestation)]).

(** The [try] block of [validatePositionMovement].  [validatePrices] is
    called without [await], so [priceValid] is the promise itself. *)
Definition validatePositionMovement_try
    (position : Position) (action : string) (currentPrice : float) : M value :=
  chainlinkPrice <- getChainlinkPrice ;;
  let priceValid := validatePrices currentPrice chainlinkPrice in
  validatePositionMovement_checks priceValid position action currentPrice.

Definition validatePositionMovement
    (position : Position) (action : string) (currentPrice : float) : M value :=
  try_catch
    (validatePositionMovement_try position action currentPrice)
    (fun err =>
       console "error" [VStr "Validation error:"; VStr (message err)] ;;;
       ret (VObj [("success", VBool false);
                  ("reason", VStr "Validation error");
                  ("details", VStr (message err))])).

(** "Recreate the message hash": the digest of the attestation's fields. *)
Definition recreate_messageHash (attestation : value) : M string :=
  positionId <- lift (get_prop "positionId" attestation) ;;
  owner <- lift (get_prop "owner" attestation) ;;
  action <- lift (get_prop "action" attestation) ;;
  timestamp <- lift (get_prop "timestamp" attestation) ;;
  priceAtValidation <- lift (get_prop "priceAtValidation" attestation) ;;
  price <- lift (toString_method "attestation.priceAtValidation"
                   priceAtValidation) ;;
  messageHash positionId owner action timestamp price.

(** The [try] block of [verifyAttestation]. *)
Definition verifyAttestation_try (attestation : value) : M value :=
  signature <- lift (get_prop "signature" attestation) ;;
  if negb (to_boolean signature) then
    ret (VObj [("valid", VBool false);
               ("reason", VStr "No signature on attestation")])
  else
    digest <- recreate_messageHash attestation ;;
    recoveredAddress <- call (EVerifyMessage digest signature)
                          (verifyMessage digest signature) ;;
    approved <- call (EIsApprovedValidator recoveredAddress)
                  (isApprovedValidator recoveredAddress) ;;
    ret (VObj [("valid", approved);
               ("signer", VStr recoveredAddress);
               ("isApprovedValidator", approved)]).

Definition verifyAttestation (attestation : value) : M value :=
  try_catch
    (verifyAttestation_try attestation)
    (fun err =>
       console "error" [VStr "Error verifying attestation:";
                        VStr (message err)] ;;;
       ret (VObj [("valid", VBool false); ("reason", VStr (message err))])).

End Service.

(** ** Observations on runs *)

(** The events only the attestation signer produces. *)
Definition signer_event (e : event) : bool :=
  match e with
  | ENewWallet _ | EKeccak _ | ESignMessage _ | EAxiosPost _ _
  | EStoreAttestation _ => true
  | _ => false
  end.

(** [success] of what [await p] hands over is truthy. *)
Definition settled_success (p : value) : bool :=
  match await p [] with
  | (Return (VObj fields), _) => to_boolean (lookup "success" fields)
  | _ => false
  end.

(** An object returned with [success: true]. *)
Definition returned_success (o : outcome value) : bool :=
  match o with
  | Return (VObj fields) => to_boolean (lookup "success" fields)
  | _ => false
  end.

Section Observations.

Context {P : Platform}.

(** What [validatePositionState] derives from its inputs at trace [tr]. *)
Definition isActive (position : Position) (currentPrice : float) : bool :=
  (tickToPrice (lowerTick position) <=? currentPrice)%float
  && (currentPrice <=? tickToPrice (upperTick position))%float.

Definition inactiveDuration (position : Position) (tr : trace) : float :=
  (Math_floor (Date_now (clock_reads tr) / 1000)
   - lastActiveTimestamp position)%float.

(** The tolerance [validatePrices] compares against. *)
Definition tolerance : float := to_number VALIDATION_THRESHOLD.

Definition inactivityThreshold : float :=
  (to_number POSITION_INACTIVITY_DAYS * 24 * 60 * 60)%float.

(** Both validations of a call at trace [tr] returned [success: true]: the
    promise of [validatePrices] on the fetched secondary price, and
    [validatePositionState] run next. *)
Definition validations_succeed
    (position : Position) (action : string) (currentPrice : float)
    (tr : trace) : bool :=
  match getChainlinkPrice tr with
  | (Return chainlinkPrice, tr1) =>
      settled_success (validatePrices currentPrice chainlinkPrice)
      && returned_success
           (fst (validatePositionState position action currentPrice tr1))
  | (Throw _, _) => false
  end.

Definition price_validation_failed : value :=
  VObj [("success", VBool false);
        ("reason", VStr "Price validation failed");
        ("details", VUndefined)].

Definition validation_error (e : error) : value :=
  VObj [("success", VBool false);
        ("reason", VStr "Validation error");
        ("details", VStr (message e))].

End Observations.

(** ** A platform to run examples on

    A small engine, exact on the integers the examples use, and services
    whose answers are chosen per example. *)

Module Sample.

Definition of_Z (z : Z) : float :=
  SF2Prim (binary_normalize prec emax z 0 false).

(** [floor] on binary64: a negative exponent leaves bits below the unit. *)
Definition floor (x : float) : float :=
  match Prim2SF x with
  | S754_finite s m e =>
      if (e <? 0)%Z
      then of_Z (cond_Zopp s (Zpos m) / 2 ^ (- e))
      else x
  | _ => x
  end.

(** The integer a float stands for, fractions dropped. *)
Definition to_Z (x : float) : Z :=
  match Prim2SF x with
  | S754_finite s m e =>
      if (e <? 0)%Z
      then cond_Zopp s (Zpos m) / 2 ^ (- e)
      else cond_Zopp s (Zpos m) * 2 ^ e
  | _ => 0
  end.

Fixpoint pow_nat (b : float) (n : nat) : float :=
  match n with
  | O => 1%float
  | S k => (b * pow_nat b k)%float
  end.

(** Powers by repeated multiplication, for integer exponents. *)
Definition pow (b t : float) : float :=
  let z := to_Z t in
  if (0 <=? z)%Z then pow_nat b (Z.to_nat z)
  else (1 / pow_nat b (Z.to_nat (- z)))%float.

Definition string_of_Z (z : Z) : string :=
  NilZero.string_of_int (Z.to_int z).

Definition Z_of_string (s : string) : option Z :=
  option_map Z.of_int (NilZero.int_of_string s).

Definition number_of_string (s : string) : float :=
  match Z_of_string s with
  | Some z => of_Z z
  | None => nan
  end.

(** What the services answer in an example. *)
Record answers := {
  threshold : option string;
  key : option string;
  api_url : option string;
  clock : float;
  round : outcome Z;
  posted : outcome value;
  stored : outcome unit;
  recovered : outcome string;
  approved : outcome value
}.

Definition platform (a : answers) : Platform := {|
  Math_pow := pow;
  Math_log := fun _ => nan;
  Math_floor := floor;
  Number_toString := fun x => string_of_Z (to_Z x);
  String_toNumber := number_of_string;
  parseFloat := number_of_string;
  Date_now := fun _ => clock a;
  env_VALIDATION_THRESHOLD := threshold a;
  env_POSITION_INACTIVITY_DAYS := None;
  env_VALIDATION_API_URL := api_url a;
  env_VALIDATOR_ADDRESS := Some "0xValidator";
  env_VALIDATOR_PRIVATE_KEY := key a;
  env_CHAINLINK_ETH_USD_ADDRESS := None;
  latestRoundData := fun _ => round a;
  formatUnits := fun z d => string_of_Z (z / 10 ^ d);
  parseUnits := fun s d =>
    match Z_of_string s with
    | Some z => Return (z * 10 ^ d)%Z
    | None => Throw (Error "invalid FixedNumber string value")
    end;
  solidityPackedKeccak256 := fun _ _ => Return "0xdigest";
  Wallet := fun _ => Return tt;
  signMessage := fun k d => Return ("signed:" ++ d);
  verifyMessage := fun _ _ => recovered a;
  axios_post := fun _ _ => posted a;
  storeAttestation := fun _ => stored a;
  isApprovedValidator := fun _ => approved a
|}.

(** Chainlink answers 2000 USD (8 decimals), nothing else is configured. *)
Definition quiet : answers := {|
  threshold := None;
  key := None;
  api_url := None;
  clock := 1700000000000;
  round := Return 200000000000%Z;
  posted := Throw (Error "connect ECONNREFUSED");
  stored := Return tt;
  recovered := Throw (Error "invalid signature");
  approved := Return (VBool true)
|}.

(** A position over ticks 100..200, out of the pool, last active exactly
    seven days before [clock quiet]. *)
Definition position : Position := {|
  id := "0x01";
  owner := "0xOwner";
  lowerTick := 100;
  upperTick := 200;
  isRestaked := false;
  lastActiveTimestamp := 1699395200
|}.

Definition quiet_platform : Platform := platform quiet.

(** The aggregator cannot be reached. *)
Definition rpc_down : answers := {|
  threshold := None;
  key := None;
  api_url := None;
  clock := 1700000000000;
  round := Throw (Error "could not detect network");
  posted := Throw (Error "connect ECONNREFUSED");
  stored := Return tt;
  recovered := Throw (Error "invalid signature");
  approved := Return (VBool true)
|}.

(** A signing key and an external validation endpoint are configured, the
    endpoint refuses connections, the store answers [store]. *)
Definition endpoint_down (store : outcome unit) : answers := {|
  threshold := None;
  key := Some "0xkey";
  api_url := Some "https://validation.example/attest";
  clock := 1700000000000;
  round := Return 200000000000%Z;
  posted := Throw (Error "connect ECONNREFUSED");
  stored := store;
  recovered := Throw (Error "invalid signature");
  approved := Return (VBool true)
|}.

Definition unsigned_attestation : value :=
  VObj [("positionId", VStr "0x01");
        ("owner", VStr "0xOwner");
        ("action", VStr "restake");
        ("timestamp", VNum 1700000000);
        ("priceAtValidation", VNum 2000)].

Definition garbled_attestation : value :=
  set_prop "signature" (VStr "0xnonsense") unsigned_attestation.

End Sample.

(** ** The price source and the standalone price check

    [oracle.service] is the primary price source: [getPrice(symbol)] answers
    an object whose [price] is a decimal string, or throws.  The trace has no
    event for it; the call shows in its answer. *)

Class Oracle := {
  getPrice : string -> outcome value
}.

(** ToString, for the argument of [parseFloat]. *)
Definition ToString {P : Platform} (v : value) : string :=
  match v with
  | VUndefined => "undefined"
  | VNull => "null"
  | VBool b => if b then "true" else "false"
  | VNum x => Number_toString x
  | VBigInt z => NilZero.string_of_int (Z.to_int z)
  | VStr s => s
  | VObj _ => "[object Object]"
  | VPromise _ => "[object Promise]"
  end.

Section MultiplePrices.

Context {P : Platform} {O : Oracle}.

(** The [try] block of [validateMultiplePrices]; as in the orchestrator,
    [validatePrices] is called without [await]. *)
Definition validateMultiplePrices_try : M value :=
  binancePrice <- lift (getPrice "ETHUSDT") ;;
  chainlinkPrice <- getChainlinkPrice ;;
  price <- lift (get_prop "price" binancePrice) ;;
  let averagePrice := ((parseFloat (ToString price) + chainlinkPrice) / 2)%float in
  price <- lift (get_prop "price" binancePrice) ;;
  let validation := validatePrices (parseFloat (ToString price)) chainlinkPrice in
  validation_success <- lift (get_prop "success" validation) ;;
  price <- lift (get_prop "price" binancePrice) ;;
  ret (VObj [("success", validation_success);
             ("averagePrice", VNum averagePrice);
             ("sources",
              VObj [("binance", VNum (parseFloat (ToString price)));
                    ("chainlink", VNum chainlinkPrice)]);
             ("validation", validation)]).

Definition validateMultiplePrices : M value :=
  try_catch
    validateMultiplePrices_try
    (fun err =>
       console "error" [VStr "Error validating prices:"; VStr (message err)] ;;;
       ret (VObj [("success", VBool false); ("error", VStr (message err))])).

End MultiplePrices.

(** ** The position monitor script *)

Module PositionMonitor.

(** The index [forEach] hands to its callback, as a number. *)
Definition index_number (n : nat) : float :=
  SF2Prim (binary_normalize prec emax (Z.of_nat n) 0 false).

Section Script.

Context {P : Platform} {O : Oracle}.

(** The price, or [None] for [null]. *)
Definition getCurrentPrice : M (option float) :=
  try_catch
    (response <- lift (getPrice "ETHUSDT") ;;
     price <- lift (get_prop "price" response) ;;
     let price := parseFloat (ToString price) in
     console "log" [VStr "Fetched Current Price:"; VNum price] ;;;
     ret (Some price))
    (fun err =>
       console "error" [VStr "Error fetching current price:";
                        VStr (message err)] ;;;
       ret None).

(** [(lowerBound, upperBound)] *)
Definition calculateActiveRange (currentPrice : float) : float * float :=
  ((currentPrice * 0.7)%float, (currentPrice * 1.3)%float).

Definition isPositionActive (position : Position) (currentPrice : float)
  : bool :=
  let '(lowerBound, upperBound) := calculateActiveRange currentPrice in
  (lowerBound <=? lowerTick position)%float
  && (lowerTick position <=? upperBound)%float
  || (lowerBound <=? upperTick position)%float
     && (upperTick position <=? upperBound)%float.

Definition position_label (index : nat) : string :=
  "Position " ++ Number_toString (index_number index + 1)%float.

Definition position_line (position : Position) (index : nat) (isActive : bool)
  : event :=
  EConsole "log"
    [VStr (position_label index ++ ":");
     VObj [("lowerTick", VNum (lowerTick position));
           ("upperTick", VNum (upperTick position));
           ("isActive", VStr (if isActive then "Active" else "Inactive"))]].

Definition withdraw_line (index : nat) : event :=
  EConsole "log"
    [VStr (position_label index ++ " is inactive. Withdrawing liquidity...")].

(** [positions.forEach((position, index) => ...)], from [index] on. *)
Fixpoint forEach_position
    (positions : list Position) (index : nat) (currentPrice : float) : M unit :=
  match positions with
  | [] => ret tt
  | position :: rest =>
      let isActive := isPositionActive position currentPrice in
      emit (position_line position index isActive) ;;;
      (if negb isActive then emit (withdraw_line index) else ret tt) ;;;
      forEach_position rest (S index) currentPrice
  end.

Definition monitorLiquidityPositions (positions : list Position) : M unit :=
  try_catch
    (currentPrice <- getCurrentPrice ;;
     match currentPrice with
     | Some price =>
         if negb (to_boolean (VNum price))
         then throw (Error "Failed to fetch current price")
         else
           let '(lowerBound, upperBound) := calculateActiveRange price in
           console "log" [VStr "Active Range:"; VNum lowerBound; VStr "-";
                          VNum upperBound] ;;;
           forEach_position positions 0 price
     | None => throw (Error "Failed to fetch current price")
     end)
    (fun err =>
       console "error" [VStr "Error monitoring liquidity positions:";
                        VStr (message err)]).

(** "Example positions" *)
Definition positions : list Position :=
  [ {| id := EmptyString; owner := EmptyString;
       lowerTick := 1500; upperTick := 2000;
       isRestaked := false; lastActiveTimestamp := 0 |};
    {| id := EmptyString; owner := EmptyString;
       lowerTick := 2500; upperTick := 3000;
       isRestaked := false; lastActiveTimestamp := 0 |} ].

End Script.

(** The lines of a trace saying a position is withdrawn. *)
Definition is_withdraw_line (e : event) : bool :=
  match e with
  | EConsole _ [VStr s] =>
      match index 0 " is inactive. Withdrawing liquidity..." s with
      | Some _ => true
      | None => false
      end
  | _ => false
  end.

End PositionMonitor.

(** ** More observations and platforms *)

(** The lines the monitor's loop writes for [positions], numbered from
    [start]: for each position its status line, followed by a withdrawal
    line when it is not active. *)
Definition position_log {P : Platform}
    (start : nat) (positions : list Position) (currentPrice : float)
  : list event :=
  concat
    (map (fun numbered : nat * Position =>
            let (index, position) := numbered in
            let isActive :=
              PositionMonitor.isPositionActive position currentPrice in
            PositionMonitor.position_line position index isActive
            :: (if isActive then []
                else [PositionMonitor.withdraw_line index]))
         (combine (seq start (length positions)) positions)).

(** The events that send an attestation out of the process. *)
Definition outbound_event (e : event) : bool :=
  match e with
  | EAxiosPost _ _ | EStoreAttestation _ => true
  | _ => false
  end.

(** The attestation data as first built by a call of [generateAttestation]
    at trace [tr]. *)
Definition attestationData_at {P : Platform}
    (position : Position) (action : string) (currentPrice : float)
    (tr : trace) : value :=
  attestationData_new position action currentPrice
    (Math_floor (Date_now (clock_reads tr) / 1000)).

Definition store_event (e : event) : bool :=
  match e with
  | EStoreAttestation _ => true
  | _ => false
  end.

(** The events by which something is signed, posted or stored. *)
Definition writing_event (e : event) : bool :=
  match e with
  | ENewWallet _ | ESignMessage _ | EAxiosPost _ _ | EStoreAttestation _ => true
  | _ => false
  end.

Definition console_event (e : event) : bool :=
  match e with
  | EConsole _ _ => true
  | _ => false
  end.

(** What [verifyAttestation] answers once the digest is known. *)
Definition verdict {P : Platform}
    (digest : string) (signature : value) (tr : trace) : outcome value * trace :=
  let tr1 := (tr ++ [EVerifyMessage digest signature])%list in
  let caught e tr :=
    (Return (VObj [("valid", VBool false); ("reason", VStr (message e))]),
     (tr ++ [EConsole "error" [VStr "Error verifying attestation:";
                               VStr (message e)]])%list) in
  match verifyMessage digest signature with
  | Throw e => caught e tr1
  | Return address =>
      let tr2 := (tr1 ++ [EIsApprovedValidator address])%list in
      match isApprovedValidator address with
      | Throw e => caught e tr2
      | Return approved =>
          (Return (VObj [("valid", approved);
                         ("signer", VStr address);
                         ("isApprovedValidator", approved)]),
           tr2)
      end
  end.

Module Scenario.

(** [Sample.platform], with the inactivity setting, the wallet and the
    signature chosen too. *)
Definition platform
    (a : Sample.answers) (days : option string)
    (wallet : outcome unit) (signed : outcome string) : Platform := {|
  Math_pow := @Math_pow (Sample.platform a);
  Math_log := @Math_log (Sample.platform a);
  Math_floor := @Math_floor (Sample.platform a);
  Number_toString := @Number_toString (Sample.platform a);
  String_toNumber := @String_toNumber (Sample.platform a);
  parseFloat := @parseFloat (Sample.platform a);
  Date_now := @Date_now (Sample.platform a);
  env_VALIDATION_THRESHOLD := @env_VALIDATION_THRESHOLD (Sample.platform a);
  env_POSITION_INACTIVITY_DAYS := days;
  env_VALIDATION_API_URL := @env_VALIDATION_API_URL (Sample.platform a);
  env_VALIDATOR_ADDRESS := @env_VALIDATOR_ADDRESS (Sample.platform a);
  env_VALIDATOR_PRIVATE_KEY := @env_VALIDATOR_PRIVATE_KEY (Sample.platform a);
  env_CHAINLINK_ETH_USD_ADDRESS :=
    @env_CHAINLINK_ETH_USD_ADDRESS (Sample.platform a);
  latestRoundData := @latestRoundData (Sample.platform a);
  formatUnits := @formatUnits (Sample.platform a);
  parseUnits := @parseUnits (Sample.platform a);
  solidityPackedKeccak256 := @solidityPackedKeccak256 (Sample.platform a);
  Wallet := fun _ => wallet;
  signMessage := fun _ _ => signed;
  verifyMessage := @verifyMessage (Sample.platform a);
  axios_post := @axios_post (Sample.platform a);
  storeAttestation := @storeAttestation (Sample.platform a);
  isApprovedValidator := @isApprovedValidator (Sample.platform a)
|}.

(** A key and an endpoint are configured; the endpoint answers
    [{data: {ok: true}}], the recovery finds the validator. *)
Definition all_up : Sample.answers := {|
  Sample.threshold := None;
  Sample.key := Some "0xkey";
  Sample.api_url := Some "https://validation.example/attest";
  Sample.clock := 1700000000000;
  Sample.round := Return 200000000000%Z;
  Sample.posted := Return (VObj [("data", VObj [("ok", VBool true)])]);
  Sample.stored := Return tt;
  Sample.recovered := Return "0xValidator";
  Sample.approved := Return (VBool true)
|}.

(** Binance quotes [price]. *)
Definition binance (price : string) : Oracle := {|
  getPrice := fun _ => Return (VObj [("price", VStr price)])
|}.

Definition binance_down : Oracle := {|
  getPrice := fun _ => Throw (Error "Request failed with status code 451")
|}.

(** A position already restaked. *)
Definition restaked_position : Position := {|
  id := "0x02";
  owner := "0xOwner";
  lowerTick := 100;
  upperTick := 200;
  isRestaked := true;
  lastActiveTimestamp := 1699395200
|}.

End Scenario.

(** ** Facts on binary64 comparisons *)

Module F64.

Lemma SFcompare_antisym (x y : spec_float) :
  SFcompare x y = option_map CompOpp (SFcompare y x).
Proof.
  destruct x as [ | | |s1 m1 e1], y as [ | | |s2 m2 e2]; simpl; try reflexivity;
    repeat match goal with b : bool |- _ => destruct b end; simpl;
    try reflexivity;
    rewrite (Z.compare_antisym e1 e2); destruct (e1 ?= e2)%Z; simpl;
    try reflexivity;
    rewrite !Pos.compare_cont_spec; simpl;
    rewrite (Pos.compare_antisym m1 m2); destruct (m1 ?= m2)%positive;
    reflexivity.
Qed.

Lemma SFcompare_defined (x y : spec_float) :
  x <> S754_nan -> y <> S754_nan -> exists c, SFcompare x y = Some c.
Proof.
  intros Hx Hy.
  destruct x, y; try congruence; simpl; eexists; reflexivity.
Qed.

Lemma not_nan_spec (x : float) :
  PrimFloat.is_nan x = false -> Prim2SF x <> S754_nan.
Proof.
  unfold PrimFloat.is_nan. rewrite eqb_spec. unfold SFeqb.
  intros H E. rewrite E in H. simpl in H. discriminate.
Qed.

(** [x < y] excludes [y <= x]. *)
Lemma ltb_leb_false (x y : float) :
  (x <? y)%float = true -> (y <=? x)%float = false.
Proof.
  rewrite ltb_spec, leb_spec. unfold SFltb, SFleb.
  rewrite (SFcompare_antisym (Prim2SF y) (Prim2SF x)).
  destruct (SFcompare (Prim2SF x) (Prim2SF y)) as [[ | | ]|]; simpl;
    congruence.
Qed.

(** On numbers, "not greater" and "less or equal" coincide. *)
Lemma not_gt_leb (x y : float) :
  PrimFloat.is_nan x = false -> PrimFloat.is_nan y = false ->
  negb (y <? x)%float = (x <=? y)%float.
Proof.
  intros Hx Hy.
  destruct (SFcompare_defined _ _ (not_nan_spec _ Hx) (not_nan_spec _ Hy))
    as [c Hc].
  rewrite ltb_spec, leb_spec. unfold SFltb, SFleb.
  rewrite (SFcompare_antisym (Prim2SF y) (Prim2SF x)), Hc.
  destruct c; reflexivity.
Qed.

(** Equal numbers are ordered. *)
Lemma eqb_leb (x y : float) :
  (x =? y)%float = true -> (x <=? y)%float = true.
Proof.
  rewrite eqb_spec, leb_spec. unfold SFeqb, SFleb.
  destruct (SFcompare (Prim2SF x) (Prim2SF y)) as [[ | | ]|]; congruence.
Qed.

(** Equal numbers are not strictly ordered. *)
Lemma eqb_ltb_false (x y : float) :
  (x =? y)%float = true -> (x <? y)%float = false.
Proof.
  rewrite eqb_spec, ltb_spec. unfold SFeqb, SFltb.
  destruct (SFcompare (Prim2SF x) (Prim2SF y)) as [[ | | ]|]; congruence.
Qed.

Lemma SFabs_round_aux (s : bool) (m e : Z) (l : location) :
  SFabs (binary_round_aux prec emax s m e l)
  = SFabs (binary_round_aux prec emax false m e l).
Proof.
  unfold binary_round_aux.
  destruct (shr_fexp prec emax m e l) as [mrs' e'].
  destruct (shr_fexp prec emax _ e' loc_Exact) as [mrs'' e''].
  destruct (shr_m mrs''); try reflexivity.
  destruct (e'' <=? emax - prec)%Z; reflexivity.
Qed.

Lemma SFabs_normalize_opp (m e : Z) :
  SFabs (binary_normalize prec emax (- m) e false)
  = SFabs (binary_normalize prec emax m e false).
Proof.
  destruct m as [|p|p]; simpl; try reflexivity; unfold binary_round;
    destruct (shl_align p e _) as [mz ez];
    rewrite (SFabs_round_aux true); reflexivity.
Qed.

Lemma SFabs_sub_sym (x y : spec_float) :
  SFabs (SF64sub x y) = SFabs (SF64sub y x).
Proof.
  unfold SF64sub.
  destruct x as [sx|sx| |sx mx ex], y as [sy|sy| |sy my ey];
    try (destruct sx); try (destruct sy); try reflexivity.
  all: unfold SFsub; rewrite (Z.min_comm ey ex);
    rewrite <- SFabs_normalize_opp; f_equal; f_equal; lia.
Qed.

(** [|x - y|] and [|y - x|] are the same number. *)
Lemma abs_sub_sym (x y : float) : abs (x - y) = abs (y - x).
Proof.
  apply Prim2SF_inj. rewrite !abs_spec, !sub_spec. apply SFabs_sub_sym.
Qed.

Local Open Scope Z_scope.

(** Rounding a non-negative mantissa never gives NaN. *)
Lemma shr_1_nonneg mrs : 0 <= shr_m mrs -> 0 <= shr_m (shr_1 mrs).
Proof.
  destruct mrs as [m r s]. simpl. destruct m as [|p|p]; simpl; try lia.
  - destruct p; simpl; lia.
Qed.

Lemma iter_shr_1_nonneg p : forall mrs,
  0 <= shr_m mrs -> 0 <= shr_m (iter_pos shr_1 p mrs).
Proof.
  induction p as [p IH|p IH|]; intros mrs H; simpl.
  - apply IH, IH, shr_1_nonneg, H.
  - apply IH, IH, H.
  - apply shr_1_nonneg, H.
Qed.

Lemma shr_fexp_nonneg m e l :
  0 <= m -> 0 <= shr_m (fst (shr_fexp prec emax m e l)).
Proof.
  intros H. unfold shr_fexp, shr.
  assert (H0 : 0 <= shr_m (shr_record_of_loc m l))
    by (destruct l as [|[ | | ]]; exact H).
  destruct (fexp prec emax (Zdigits2 m + e) - e); simpl; try exact H0.
  apply iter_shr_1_nonneg, H0.
Qed.

Lemma round_nearest_even_nonneg m l : 0 <= m -> 0 <= round_nearest_even m l.
Proof.
  intros H. unfold round_nearest_even.
  destruct l as [|[ | | ]]; try destruct (Z.even m); lia.
Qed.

Lemma binary_round_aux_not_nan s m e l :
  0 <= m -> binary_round_aux prec emax s m e l <> S754_nan.
Proof.
  intros H. unfold binary_round_aux.
  pose proof (shr_fexp_nonneg m e l H) as H1.
  destruct (shr_fexp prec emax m e l) as [mrs' e']. simpl in H1.
  pose proof (shr_fexp_nonneg _ e' loc_Exact
                (round_nearest_even_nonneg _ (loc_of_shr_record mrs') H1)) as H2.
  destruct (shr_fexp prec emax _ e' loc_Exact) as [mrs'' e'']. simpl in H2.
  destruct (shr_m mrs''); try discriminate; try lia.
  destruct (e'' <=? emax - prec); discriminate.
Qed.

Lemma binary_normalize_not_nan m e :
  binary_normalize prec emax m e false <> S754_nan.
Proof.
  destruct m; simpl; try discriminate; unfold binary_round;
    destruct (shl_align _ _ _); apply binary_round_aux_not_nan; lia.
Qed.

Lemma SFabs_unsigned x : x <> S754_nan -> unsigned_number (SFabs x).
Proof. destruct x; simpl; try congruence; exact (fun _ => I). Qed.

Lemma SFsub_finite_not_nan sx mx ex sy my ey :
  SF64sub (S754_finite sx mx ex) (S754_finite sy my ey) <> S754_nan.
Proof. apply binary_normalize_not_nan. Qed.

Lemma SFdiv_not_nan x my ey :
  unsigned_number x -> SF64div x (S754_finite false my ey) <> S754_nan.
Proof.
  destruct x as [[|]|[|]| |[|] mx ex]; simpl; try contradiction; intros _;
    try discriminate.
  unfold SF64div, SFdiv, SFdiv_core_binary.
  set (m' := match _ - _ - _ with Z0 => _ | Zpos _ => _ | Zneg _ => _ end).
  assert (Hm : 0 <= m').
  { unfold m'. destruct (_ - _ - _); try lia. apply Z.shiftl_nonneg. lia. }
  pose proof (Z.div_pos m' (Zpos my) Hm ltac:(lia)) as Hq.
  unfold Z.div in Hq. destruct (Z.div_eucl m' (Zpos my)) as [q r].
  apply binary_round_aux_not_nan. exact Hq.
Qed.

Lemma positive_finite_spec x :
  positive_finite x = true -> exists m e, Prim2SF x = S754_finite false m e.
Proof.
  unfold positive_finite. rewrite andb_true_iff, !ltb_spec.
  change (Prim2SF 0) with (S754_zero false).
  change (Prim2SF infinity) with (S754_infinity false).
  unfold SFltb. destruct (Prim2SF x) as [s|[|]| |[|] m e]; simpl;
    intros [H1 H2]; try discriminate.
  do 2 eexists; reflexivity.
Qed.

Lemma SFcompare_refl x : x <> S754_nan -> SFcompare x x = Some Eq.
Proof.
  destruct x as [s|[|]| |[|] m e]; simpl; try congruence; intros _;
    rewrite Z.compare_refl, Pos.compare_cont_refl; reflexivity.
Qed.

Lemma is_nan_false x : Prim2SF x <> S754_nan -> PrimFloat.is_nan x = false.
Proof.
  intros H. unfold PrimFloat.is_nan. rewrite eqb_spec. unfold SFeqb.
  rewrite (SFcompare_refl _ H). reflexivity.
Qed.

Lemma is_nan_true x : PrimFloat.is_nan x = true -> Prim2SF x = S754_nan.
Proof.
  unfold PrimFloat.is_nan. rewrite eqb_spec. unfold SFeqb. intros H.
  destruct (Prim2SF x) eqn:E; try reflexivity;
    rewrite SFcompare_refl in H by discriminate; discriminate.
Qed.

(** Two positive finite numbers have a relative difference that is a
    number. *)
Lemma relative_difference_defined p s :
  positive_finite p = true -> positive_finite s = true ->
  PrimFloat.is_nan (abs (p - s) / s) = false.
Proof.
  intros Hp Hs.
  destruct (positive_finite_spec _ Hp) as (mp & ep & Ep).
  destruct (positive_finite_spec _ Hs) as (ms & es & Es).
  apply is_nan_false. rewrite div_spec, abs_spec, sub_spec, Ep, Es.
  apply SFdiv_not_nan, SFabs_unsigned, SFsub_finite_not_nan.
Qed.

End F64.


(** ** Running computations *)

Lemma bind_return {A B} (m : M A) (k : A -> M B) tr a tr' :
  m tr = (Return a, tr') -> bind m k tr = k a tr'.
Proof. intros H. unfold bind. rewrite H. reflexivity. Qed.

Lemma bind_throw {A B} (m : M A) (k : A -> M B) tr e tr' :
  m tr = (Throw e, tr') -> bind m k tr = (Throw e, tr').
Proof. intros H. unfold bind. rewrite H. reflexivity. Qed.

Lemma try_return {A} (m : M A) (h : error -> M A) tr a tr' :
  m tr = (Return a, tr') -> try_catch m h tr = (Return a, tr').
Proof. intros H. unfold try_catch. rewrite H. reflexivity. Qed.

Lemma try_throw {A} (m : M A) (h : error -> M A) tr e tr' :
  m tr = (Throw e, tr') -> try_catch m h tr = h e tr'.
Proof. intros H. unfold try_catch. rewrite H. reflexivity. Qed.

Lemma filter_snoc {A} (f : A -> bool) (l : list A) (x : A) :
  f x = false -> filter f (l ++ [x]) = filter f l.
Proof.
  intros H. rewrite filter_app. simpl. rewrite H. apply app_nil_r.
Qed.

Ltac run_monad :=
  unfold console, now in *;
  unfold bind, ret, lift, call, try_catch, emit, throw in *.

(** ** Price reconciliation *)

Section Reconciliation.

Context {P : Platform}.

(** The promise of [validatePrices] is fulfilled with [success: true] exactly
    when the test [priceDiff > VALIDATION_THRESHOLD] is false. *)
Lemma validatePrices_success (binancePrice chainlinkPrice : float) :
  settled_success (validatePrices binancePrice chainlinkPrice)
  = negb (tolerance <? priceDiff binancePrice chainlinkPrice)%float.
Proof.
  unfold validatePrices, validatePrices_body, settled_success, tolerance.
  cbn [await lift fst].
  destruct (_ <? _)%float; reflexivity.
Qed.

(** Away from NaN, the test [priceDiff > VALIDATION_THRESHOLD] fails exactly
    when the relative difference is at most the tolerance. *)
Lemma validatePrices_succeeds_iff_within_tolerance
    (primary secondary : float) :
  PrimFloat.is_nan (abs (primary - secondary) / secondary) = false ->
  PrimFloat.is_nan tolerance = false ->
  (settled_success (validatePrices primary secondary) = true
   <-> (abs (primary - secondary) / secondary <=? tolerance)%float = true).
Proof.
  intros Hd Ht. rewrite validatePrices_success. unfold priceDiff.
  rewrite (F64.not_gt_leb _ _ Hd Ht). reflexivity.
Qed.

(** The side condition on the difference holds for all positive finite
    prices. *)
Lemma validatePrices_positive_prices (primary secondary : float) :
  positive_finite primary = true ->
  positive_finite secondary = true ->
  PrimFloat.is_nan tolerance = false ->
  settled_success (validatePrices primary secondary)
  = (abs (primary - secondary) / secondary <=? tolerance)%float.
Proof.
  intros Hp Hs Ht. rewrite validatePrices_success. unfold priceDiff.
  apply F64.not_gt_leb; [|exact Ht].
  apply F64.relative_difference_defined; assumption.
Qed.

(** C2: for every pair of prices, positive finite numbers, and every
    tolerance that is a number, price reconciliation succeeds if and only if
    [|primary - secondary| / secondary <= tolerance]; in particular a
    relative difference exactly equal to the tolerance succeeds. *)
Theorem validatePrices_succeeds_iff (primary secondary : float) :
  positive_finite primary = true ->
  positive_finite secondary = true ->
  PrimFloat.is_nan tolerance = false ->
  (settled_success (validatePrices primary secondary) = true
   <-> (abs (primary - secondary) / secondary <=? tolerance)%float = true)
  /\ ((abs (primary - secondary) / secondary =? tolerance)%float = true ->
      settled_success (validatePrices primary secondary) = true).
Proof.
  intros Hp Hs Ht.
  rewrite (validatePrices_positive_prices _ _ Hp Hs Ht).
  split; [reflexivity|]. apply F64.eqb_leb.
Qed.

(** A NaN difference or a NaN tolerance is accepted. *)
Lemma validatePrices_accepts_nan (primary secondary : float) :
  PrimFloat.is_nan (priceDiff primary secondary) = true
  \/ PrimFloat.is_nan tolerance = true ->
  settled_success (validatePrices primary secondary) = true.
Proof.
  intros H. rewrite validatePrices_success.
  assert (E : (tolerance <? priceDiff primary secondary)%float = false).
  { rewrite ltb_spec. unfold SFltb.
    destruct H as [H|H]; apply F64.is_nan_true in H; rewrite H;
      [destruct (Prim2SF tolerance)|]; reflexivity. }
  rewrite E. reflexivity.
Qed.

(** C3, amended: price reconciliation is symmetric in the absolute
    difference only.  [validatePrices a b] succeeds exactly when
    [|b - a| / b], taken on the second price, does not exceed the tolerance;
    the order of the subtraction is immaterial, the base is not. *)
Theorem validatePrices_symmetric_difference (a b : float) :
  settled_success (validatePrices a b)
  = negb (tolerance <? abs (b - a) / b)%float.
Proof.
  rewrite validatePrices_success. unfold priceDiff.
  rewrite (F64.abs_sub_sym a b). reflexivity.
Qed.

End Reconciliation.

(** Witness of C2: 105 against 100 differs by exactly the default tolerance
    0.05, and is accepted. *)
Lemma validatePrices_succeeds_iff_witness :
  positive_finite 105 = true
  /\ positive_finite 100 = true
  /\ PrimFloat.is_nan (@tolerance Sample.quiet_platform) = false
  /\ (abs (105 - 100) / 100 =? @tolerance Sample.quiet_platform)%float = true
  /\ settled_success (@validatePrices Sample.quiet_platform 105 100) = true.
Proof.
  split; [reflexivity|]. split; [reflexivity|]. split; [reflexivity|].
  split; [reflexivity|].
  apply (proj2 (@validatePrices_succeeds_iff
                  Sample.quiet_platform 105%float 100%float
                  eq_refl eq_refl eq_refl)).
  reflexivity.
Defined.

(** The same pair, through the lemma on numbers that are not NaN. *)
Lemma validatePrices_succeeds_iff_within_tolerance_witness :
  PrimFloat.is_nan (abs (105 - 100) / 100) = false
  /\ PrimFloat.is_nan (@tolerance Sample.quiet_platform) = false
  /\ (abs (105 - 100) / 100 =? @tolerance Sample.quiet_platform)%float = true
  /\ (settled_success (@validatePrices Sample.quiet_platform 105 100) = true
      <-> (abs (105 - 100) / 100 <=? @tolerance Sample.quiet_platform)%float
          = true).
Proof.
  split; [reflexivity|]. split; [reflexivity|]. split; [reflexivity|].
  apply (@validatePrices_succeeds_iff_within_tolerance
           Sample.quiet_platform 105%float 100%float);
    reflexivity.
Defined.

(** Outside the prices: 0 against 0 has the relative difference 0/0, which
    is NaN; [NaN > 0.05] is false, so the pair is accepted, while
    [NaN <= 0.05] is false as well. *)
Lemma validatePrices_zero_against_zero :
  ~ (settled_success (@validatePrices Sample.quiet_platform 0 0) = true
     <-> (abs (0 - 0) / 0 <=? @tolerance Sample.quiet_platform)%float = true).
Proof.
  intros [H _].
  assert (E : (abs (0 - 0) / 0 <=? @tolerance Sample.quiet_platform)%float
              = false) by reflexivity.
  rewrite E in H. discriminate (H eq_refl).
Qed.

(** C3 fails as stated: at the default tolerance 0.05, 100 against 105.2 is
    accepted (5.2 / 105.2 = 0.0494...), 105.2 against 100 is rejected
    (5.2 / 100 = 0.052). *)
Lemma validatePrices_symmetry_counterexample :
  ~ (settled_success (@validatePrices Sample.quiet_platform 100 105.2) = true
     <-> settled_success (@validatePrices Sample.quiet_platform 105.2 100)
         = true).
Proof.
  intros [H _].
  assert (E : settled_success (@validatePrices Sample.quiet_platform 105.2 100)
              = false) by reflexivity.
  rewrite E in H. discriminate (H eq_refl).
Qed.

(** ** The position state check *)

Section PositionState.

Context {P : Platform}.

(** The check reads the clock once and returns; it never throws. *)
Lemma validatePositionState_trace position action currentPrice tr :
  exists v,
    validatePositionState position action currentPrice tr
    = (Return v, (tr ++ [EDateNow])%list).
Proof.
  unfold validatePositionState. run_monad.
  repeat match goal with
         | |- context [if ?c then _ else _] => destruct c
         end; eexists; reflexivity.
Qed.

(** A price strictly outside the range makes the position inactive. *)
Lemma outside_range_inactive position currentPrice :
  (currentPrice <? tickToPrice (lowerTick position))%float = true
  \/ (tickToPrice (upperTick position) <? currentPrice)%float = true ->
  isActive position currentPrice = false.
Proof.
  unfold isActive. intros [H|H]; rewrite (F64.ltb_leb_false _ _ H).
  - reflexivity.
  - apply andb_false_r.
Qed.

(** C4: for a position that is not restaked, a current price strictly
    outside [tickToPrice lowerTick, tickToPrice upperTick] and an inactive
    duration exactly equal to the inactivity threshold, the action "restake"
    is accepted: the duration test is inclusive at the boundary. *)
Theorem restake_succeeds_at_threshold
    (position : Position) (currentPrice : float) (tr : trace) :
  isRestaked position = false ->
  (currentPrice <? tickToPrice (lowerTick position))%float = true
  \/ (tickToPrice (upperTick position) <? currentPrice)%float = true ->
  (inactiveDuration position tr =? inactivityThreshold)%float = true ->
  fst (validatePositionState position "restake" currentPrice tr)
  = Return (VObj [("success", VBool true)]).
Proof.
  intros Hr Hout Hdur.
  pose proof (outside_range_inactive _ _ Hout) as Ha.
  pose proof (F64.eqb_ltb_false _ _ Hdur) as Hlt.
  unfold isActive in Ha. unfold inactiveDuration, inactivityThreshold in Hlt.
  unfold validatePositionState. run_monad. simpl.
  rewrite Ha, Hlt, Hr. reflexivity.
Qed.

(** C5: for a position that is not restaked, whatever the current price, the
    action "returnToPool" is refused: as not active when the price is out of
    range, as not restaked when it is in range. *)
Theorem returnToPool_fails_when_not_restaked
    (position : Position) (currentPrice : float) (tr : trace) :
  isRestaked position = false ->
  returned_success
    (fst (validatePositionState position "returnToPool" currentPrice tr))
  = false
  /\ exists reason details,
       fst (validatePositionState position "returnToPool" currentPrice tr)
       = Return (VObj [("success", VBool false);
                       ("details", VObj (("reason", VStr reason) :: details))])
       /\ reason
          = if isActive position currentPrice
            then "Position is not currently restaked"
            else "Position is not active and should remain restaked".
Proof.
  intros Hr. unfold validatePositionState, isActive. run_monad. simpl.
  rewrite Hr.
  destruct (_ && _); simpl; (split; [reflexivity|]);
    do 2 eexists; (split; [reflexivity|reflexivity]).
Qed.

(** An action that is neither "restake" nor "returnToPool" passes the state
    check without any precondition being looked at. *)
Lemma validatePositionState_other_action
    (position : Position) (action : string) (currentPrice : float) (tr : trace) :
  action <> "restake" -> action <> "returnToPool" ->
  validatePositionState position action currentPrice tr
  = (Return (VObj [("success", VBool true)]), (tr ++ [EDateNow])%list).
Proof.
  intros H1 H2. unfold validatePositionState. run_monad.
  apply String.eqb_neq in H1, H2. rewrite H1, H2. reflexivity.
Qed.

End PositionState.

(** Witness of C4: ticks 100..200 give the range 1.01..1.02; the price 1 is
    below it and the position has been inactive for exactly 604800 s. *)
Lemma restake_succeeds_at_threshold_witness :
  isRestaked Sample.position = false
  /\ (1 <? @tickToPrice Sample.quiet_platform (lowerTick Sample.position)
     )%float = true
  /\ (@inactiveDuration Sample.quiet_platform Sample.position []
      =? @inactivityThreshold Sample.quiet_platform)%float = true
  /\ fst (@validatePositionState Sample.quiet_platform
            Sample.position "restake" 1 [])
     = Return (VObj [("success", VBool true)]).
Proof.
  split; [reflexivity|]. split; [reflexivity|]. split; [reflexivity|].
  apply (@restake_succeeds_at_threshold Sample.quiet_platform
           Sample.position 1%float []).
  - reflexivity.
  - left. reflexivity.
  - reflexivity.
Defined.

(** Witness of C5, at a price inside the range. *)
Lemma returnToPool_fails_when_not_restaked_witness :
  isRestaked Sample.position = false
  /\ @isActive Sample.quiet_platform Sample.position 1.015 = true
  /\ returned_success
       (fst (@validatePositionState Sample.quiet_platform
               Sample.position "returnToPool" 1.015 []))
     = false.
Proof.
  split; [reflexivity|]. split; [reflexivity|].
  apply (@returnToPool_fails_when_not_restaked Sample.quiet_platform
           Sample.position 1.015%float []).
  reflexivity.
Defined.

(** ** The attestation signer *)

Section Signer.

Context {P : Platform}.

(** Signing changes the attestation by adding [signature], if at all. *)
Lemma sign_attestation_shape (a a' : value) (tr tr' : trace) :
  sign_attestation a tr = (Return a', tr') ->
  a' = a \/ exists s, a' = set_prop "signature" (VStr s) a.
Proof.
  unfold sign_attestation.
  destruct env_VALIDATOR_PRIVATE_KEY as [key|];
    [destruct (key =? EmptyString)|]; run_monad;
    try (intros H; injection H as <- _; left; reflexivity).
  unfold messageHash. run_monad.
  repeat match goal with
         | |- context [match ?o with Return _ => _ | Throw _ => _ end] =>
             destruct o; try discriminate
         end.
  intros H; injection H as <- _. right. eexists. reflexivity.
Qed.

(** [try { axios.post } catch { warn }] never throws. *)
Lemma submit_external_total (a : value) (tr : trace) :
  exists a' tr', submit_external a tr = (Return a', tr').
Proof.
  unfold submit_external.
  destruct VALIDATION_API_URL; try (do 2 eexists; reflexivity).
  run_monad.
  repeat match goal with
         | |- context [match ?o with Return _ => _ | Throw _ => _ end] =>
             destruct o
         end; do 2 eexists; reflexivity.
Qed.

Lemma submit_external_post_fails (a : value) (tr : trace) url e :
  VALIDATION_API_URL = VStr url ->
  axios_post url a = Throw e ->
  submit_external a tr
  = (Return a,
     (tr ++ [EAxiosPost url a]
         ++ [EConsole "warn" [VStr "Failed to get external validation:";
                              VStr (message e)]])%list).
Proof.
  intros Hu Hp. unfold submit_external. rewrite Hu. run_monad. rewrite Hp.
  rewrite <- app_assoc. reflexivity.
Qed.

Lemma fresh_attestation_no_externalValidation
    position action currentPrice timestamp a tr tr' :
  sign_attestation
    (attestationData_new position action currentPrice timestamp) tr
  = (Return a, tr') ->
  has_prop "externalValidation" a = false.
Proof.
  intros H. destruct (sign_attestation_shape _ _ _ _ H) as [->|[s ->]];
    reflexivity.
Qed.

(** C8: in [generateAttestation], once the attestation [att1] has left the
    signing step, (1) a failing external submission is not fatal: [att1]
    carries no [externalValidation], the submission step returns it
    unchanged, and when the store accepts it [generateAttestation] returns
    it; (2) a failing store is fatal: its error is what
    [generateAttestation] throws. *)
Theorem generateAttestation_submission_and_store
    (position : Position) (action : string) (currentPrice : float)
    (tr : trace) (att1 : value) (tr1 : trace) :
  sign_attestation
    (attestationData_new position action currentPrice
       (Math_floor (Date_now (clock_reads tr) / 1000)))
    (tr ++ [EDateNow])%list
  = (Return att1, tr1) ->
  (forall url e,
      VALIDATION_API_URL = VStr url ->
      axios_post url att1 = Throw e ->
      let tr2 :=
        (tr1 ++ [EAxiosPost url att1]
             ++ [EConsole "warn" [VStr "Failed to get external validation:";
                                  VStr (message e)]])%list in
      has_prop "externalValidation" att1 = false
      /\ submit_external att1 tr1 = (Return att1, tr2)
      /\ (storeAttestation att1 = Return tt ->
          generateAttestation position action currentPrice tr
          = (Return att1, (tr2 ++ [EStoreAttestation att1])%list)))
  /\ (forall att2 tr2 e,
        submit_external att1 tr1 = (Return att2, tr2) ->
        storeAttestation att2 = Throw e ->
        generateAttestation position action currentPrice tr
        = (Throw e, (tr2 ++ [EStoreAttestation att2])%list)).
Proof.
  intros Hs. split.
  - intros url e Hu Hp tr2.
    pose proof (submit_external_post_fails att1 tr1 url e Hu Hp) as Hsub.
    split; [eapply fresh_attestation_no_externalValidation; eassumption|].
    split; [exact Hsub|].
    intros Hst. unfold generateAttestation.
    unfold bind at 1. unfold now.
    rewrite (bind_return _ _ _ _ _ Hs).
    rewrite (bind_return _ _ _ _ _ Hsub).
    unfold bind, call, ret. rewrite Hst. reflexivity.
  - intros att2 tr2 e Hsub Hst. unfold generateAttestation.
    unfold bind at 1. unfold now.
    rewrite (bind_return _ _ _ _ _ Hs).
    rewrite (bind_return _ _ _ _ _ Hsub).
    unfold bind, call, ret. rewrite Hst. reflexivity.
Qed.

(** The signing step either does nothing or starts by building a wallet. *)
Lemma sign_attestation_trace (a : value) (tr : trace) :
  sign_attestation a tr = (Return a, tr)
  \/ exists key l,
       snd (sign_attestation a tr) = (tr ++ ENewWallet key :: l)%list.
Proof.
  unfold sign_attestation.
  destruct env_VALIDATOR_PRIVATE_KEY as [key|];
    [destruct (key =? EmptyString)|]; try (left; reflexivity).
  right. exists key. unfold messageHash. run_monad.
  repeat match goal with
         | |- context [match ?o with Return _ => _ | Throw _ => _ end] =>
             destruct o
         end; cbn [snd]; rewrite <- ?app_assoc; eexists; reflexivity.
Qed.

(** The submission step only adds events. *)
Lemma submit_external_trace (a : value) (tr : trace) :
  exists a' l, submit_external a tr = (Return a', (tr ++ l)%list).
Proof.
  unfold submit_external.
  destruct VALIDATION_API_URL;
    try (exists a, []; rewrite app_nil_r; reflexivity).
  run_monad.
  repeat match goal with
         | |- context [match ?o with Return _ => _ | Throw _ => _ end] =>
             destruct o
         end; rewrite <- ?app_assoc; do 2 eexists; reflexivity.
Qed.

(** Whatever it does, [generateAttestation] leaves a signer event: a wallet
    is built, or the store is called. *)
Lemma generateAttestation_leaves_event position action currentPrice tr :
  exists e,
    signer_event e = true
    /\ In e (snd (generateAttestation position action currentPrice tr)).
Proof.
  unfold generateAttestation. unfold bind at 1. unfold now.
  set (a := attestationData_new _ _ _ _). set (tr0 := (tr ++ [EDateNow])%list).
  destruct (sign_attestation_trace a tr0) as [Hs|(key & l & Hs)].
  - rewrite (bind_return _ _ _ _ _ Hs).
    destruct (submit_external_trace a tr0) as (a' & l & Hsub).
    rewrite (bind_return _ _ _ _ _ Hsub).
    exists (EStoreAttestation a'). split; [reflexivity|].
    unfold bind, call, ret.
    destruct (storeAttestation a'); cbn [snd]; apply in_or_app; right;
      left; reflexivity.
  - exists (ENewWallet key). split; [reflexivity|].
    destruct (sign_attestation a tr0) as [[a1|e] tr1] eqn:E; cbn [snd] in Hs;
      subst tr1.
    + rewrite (bind_return _ _ _ _ _ E).
      destruct (submit_external_trace a1 (tr0 ++ ENewWallet key :: l)%list)
        as (a' & l' & Hsub).
      rewrite (bind_return _ _ _ _ _ Hsub).
      unfold bind, call, ret.
      destruct (storeAttestation a'); cbn [snd];
        rewrite <- !app_assoc; apply in_or_app; right;
        apply in_or_app; left; left; reflexivity.
    + rewrite (bind_throw _ _ _ _ _ E). cbn [snd].
      apply in_or_app; right; left; reflexivity.
Qed.

End Signer.

(** Witness of C8: the endpoint refuses the connection; with a working store
    the signed attestation comes back without [externalValidation], with a
    failing store the store's error is thrown. *)
Lemma generateAttestation_submission_and_store_witness :
  (exists att tr,
      @generateAttestation (Sample.platform (Sample.endpoint_down (Return tt)))
        Sample.position "restake" 2000 []
      = (Return att, tr)
      /\ has_prop "signature" att = true
      /\ has_prop "externalValidation" att = false)
  /\ (exists tr,
         @generateAttestation
           (Sample.platform
              (Sample.endpoint_down (Throw (Error "store unavailable"))))
           Sample.position "restake" 2000 []
         = (Throw (Error "store unavailable"), tr)).
Proof.
  split.
  - do 2 eexists. split.
    + eapply (proj1 (@generateAttestation_submission_and_store
                       (Sample.platform (Sample.endpoint_down (Return tt)))
                       Sample.position "restake" 2000%float [] _ _ eq_refl));
        reflexivity.
    + split; reflexivity.
  - eexists.
    eapply (proj2 (@generateAttestation_submission_and_store
                     (Sample.platform
                        (Sample.endpoint_down
                           (Throw (Error "store unavailable"))))
                     Sample.position "restake" 2000%float [] _ _ eq_refl));
      reflexivity.
Defined.

(** ** The attestation verifier *)

Section Verifier.

Context {P : Platform}.

(** C7: [verifyAttestation] never throws.  (1) Every call returns a value.
    (2) When the attestation has no (truthy) [signature], the value is
    [valid: false] with a reason and the trace is untouched: nothing is
    hashed, recovered or looked up.  (3) When the signature is there and the
    recovery [verifyMessage] throws, the error is caught and the value is
    [valid: false] with the error's message as reason. *)
Theorem verifyAttestation_never_throws :
  (forall attestation tr,
      exists v tr', verifyAttestation attestation tr = (Return v, tr'))
  /\ (forall attestation tr signature,
        get_prop "signature" attestation = Return signature ->
        to_boolean signature = false ->
        verifyAttestation attestation tr
        = (Return (VObj [("valid", VBool false);
                         ("reason", VStr "No signature on attestation")]),
           tr))
  /\ (forall attestation tr signature digest tr1 e,
        get_prop "signature" attestation = Return signature ->
        to_boolean signature = true ->
        recreate_messageHash attestation tr = (Return digest, tr1) ->
        verifyMessage digest signature = Throw e ->
        verifyAttestation attestation tr
        = (Return (VObj [("valid", VBool false);
                         ("reason", VStr (message e))]),
           (tr1 ++ [EVerifyMessage digest signature]
                ++ [EConsole "error" [VStr "Error verifying attestation:";
                                      VStr (message e)]])%list)).
Proof.
  split; [|split].
  - intros attestation tr. unfold verifyAttestation, try_catch.
    destruct (verifyAttestation_try attestation tr) as [[v|e] tr'].
    + do 2 eexists; reflexivity.
    + run_monad. do 2 eexists; reflexivity.
  - intros attestation tr signature Hs Hf.
    unfold verifyAttestation, verifyAttestation_try.
    apply try_return. unfold bind at 1. unfold lift at 1.
    rewrite Hs, Hf. reflexivity.
  - intros attestation tr signature digest tr1 e Hs Ht Hd Hv.
    unfold verifyAttestation.
    rewrite (try_throw _ _ tr e (tr1 ++ [EVerifyMessage digest signature])%list).
    + run_monad. rewrite <- app_assoc. reflexivity.
    + unfold verifyAttestation_try. unfold bind at 1. unfold lift at 1.
      rewrite Hs, Ht. cbn [negb].
      rewrite (bind_return _ _ _ _ _ Hd).
      unfold bind, call. rewrite Hv. reflexivity.
Qed.

End Verifier.

(** Witness of C7: an attestation without signature, and one whose signature
    the recovery refuses. *)
Lemma verifyAttestation_never_throws_witness :
  @verifyAttestation Sample.quiet_platform Sample.unsigned_attestation []
  = (Return (VObj [("valid", VBool false);
                   ("reason", VStr "No signature on attestation")]),
     [])
  /\ fst (@verifyAttestation Sample.quiet_platform
            Sample.garbled_attestation [])
     = Return (VObj [("valid", VBool false);
                     ("reason", VStr "invalid signature")]).
Proof.
  destruct (@verifyAttestation_never_throws Sample.quiet_platform)
    as (_ & Hunsigned & Hgarbled).
  split.
  - apply (Hunsigned Sample.unsigned_attestation [] VUndefined);
      reflexivity.
  - rewrite (Hgarbled Sample.garbled_attestation [] (VStr "0xnonsense")
               "0xdigest"
               [EKeccak [VStr "RESTAKING_ATTESTATION"; VStr "0x01";
                         VStr "0xOwner"; VStr "restake"; VNum 1700000000;
                         VBigInt 2000000000000000000000]]
               (Error "invalid signature"));
      reflexivity.
Defined.

(** ** The orchestrator *)

Section Orchestrator.

Context {P : Platform}.

Lemma getChainlinkPrice_run (tr : trace) :
  match latestRoundData aggregatorAddress with
  | Return answer =>
      getChainlinkPrice tr
      = (Return (parseFloat (formatUnits answer 8)),
         (tr ++ [ELatestRoundData aggregatorAddress])%list)
  | Throw e =>
      getChainlinkPrice tr
      = (Throw e,
         (tr ++ [ELatestRoundData aggregatorAddress]
             ++ [EConsole "error" [VStr "Error fetching Chainlink price:";
                                   VStr (message e)]])%list)
  end.
Proof.
  unfold getChainlinkPrice. fold aggregatorAddress. run_monad.
  destruct (latestRoundData aggregatorAddress).
  - reflexivity.
  - rewrite <- app_assoc. reflexivity.
Qed.

(** The test [!priceValid.success] reads [success] off the promise, finds
    [undefined], and takes the failure branch whatever the prices are. *)
Lemma validatePositionMovement_try_run position action currentPrice tr :
  validatePositionMovement_try position action currentPrice tr
  = match getChainlinkPrice tr with
    | (Return _, tr1) => (Return price_validation_failed, tr1)
    | (Throw e, tr1) => (Throw e, tr1)
    end.
Proof.
  unfold validatePositionMovement_try. unfold bind at 1.
  destruct (getChainlinkPrice tr) as [[c|e] tr1]; reflexivity.
Qed.

Lemma validatePositionMovement_run position action currentPrice tr :
  validatePositionMovement position action currentPrice tr
  = match getChainlinkPrice tr with
    | (Return _, tr1) => (Return price_validation_failed, tr1)
    | (Throw e, tr1) =>
        (Return (validation_error e),
         (tr1 ++ [EConsole "error" [VStr "Validation error:";
                                    VStr (message e)]])%list)
    end.
Proof.
  unfold validatePositionMovement, try_catch.
  rewrite validatePositionMovement_try_run.
  destruct (getChainlinkPrice tr) as [[c|e] tr1]; reflexivity.
Qed.

(** The two guards, for any value standing for [priceValid]: unless its
    [success] is truthy and the state check returns [success: true], the
    checks add no signer event. *)
Lemma checks_guard_signer priceValid position action currentPrice tr :
  match get_prop "success" priceValid with
  | Return s =>
      to_boolean s
      && returned_success
           (fst (validatePositionState position action currentPrice tr))
  | Throw _ => false
  end = false ->
  filter signer_event
    (snd (validatePositionMovement_checks
            priceValid position action currentPrice tr))
  = filter signer_event tr.
Proof.
  unfold validatePositionMovement_checks. unfold bind at 1. unfold lift at 1.
  destruct (get_prop "success" priceValid) as [s|e] eqn:Hs;
    [|reflexivity].
  destruct (to_boolean s); cbn [negb andb].
  - destruct (validatePositionState_trace position action currentPrice tr)
      as [v Hv].
    rewrite Hv. cbn [fst]. intros Hf.
    rewrite (bind_return _ _ _ _ _ Hv).
    assert (E : snd ((positionValid_success <- lift (get_prop "success" v) ;;
                      if negb (to_boolean positionValid_success) then
                        details <- lift (get_prop "details" v) ;;
                        ret (VObj [("success", VBool false);
                                   ("reason",
                                    VStr "Position state invalid for requested action");
                                   ("details", details)])
                      else
                        attestation <-
                          generateAttestation position action currentPrice ;;
                        ret (VObj [("success", VBool true);
                                   ("attestation", attestation)]))
                       (tr ++ [EDateNow])%list)
                = (tr ++ [EDateNow])%list).
    { destruct v; try reflexivity.
      unfold bind at 1. unfold lift at 1. cbn [get_prop].
      cbn [returned_success] in Hf. rewrite Hf. reflexivity. }
    rewrite E. apply filter_snoc. reflexivity.
  - intros _. destruct priceValid; try discriminate; reflexivity.
Qed.

(** No call of [validatePositionMovement] adds a signer event. *)
Lemma validatePositionMovement_signer_events position action currentPrice tr :
  filter signer_event
    (snd (validatePositionMovement position action currentPrice tr))
  = filter signer_event tr.
Proof.
  rewrite validatePositionMovement_run.
  pose proof (getChainlinkPrice_run tr) as H.
  destruct (latestRoundData aggregatorAddress); rewrite H; simpl.
  - apply filter_snoc. reflexivity.
  - rewrite !filter_app. simpl. rewrite !app_nil_r. reflexivity.
Qed.

(** C1: a call of [validatePositionMovement] in which the two validations
    did not both return [success: true] adds no signer event to the trace
    and returns no attestation: the signer is reached only after both. *)
Theorem attestation_only_after_validation
    (position : Position) (action : string) (currentPrice : float)
    (tr : trace) :
  validations_succeed position action currentPrice tr = false ->
  filter signer_event
    (snd (validatePositionMovement position action currentPrice tr))
  = filter signer_event tr
  /\ forall v,
       fst (validatePositionMovement position action currentPrice tr)
       = Return v ->
       has_prop "attestation" v = false.
Proof.
  intros _. split.
  - apply validatePositionMovement_signer_events.
  - intros v. rewrite validatePositionMovement_run.
    destruct (getChainlinkPrice tr) as [[c|e] tr1]; simpl;
      intros H; injection H as <-; reflexivity.
Qed.

(** C9: [validatePositionMovement] never throws, and an error thrown by a
    step of its [try] block comes back as the value
    [{success: false, reason: "Validation error", details: message}]. *)
Theorem validatePositionMovement_catches
    (position : Position) (action : string) (currentPrice : float)
    (tr : trace) :
  (exists v tr',
      validatePositionMovement position action currentPrice tr
      = (Return v, tr'))
  /\ (forall e tr1,
        validatePositionMovement_try position action currentPrice tr
        = (Throw e, tr1) ->
        validatePositionMovement position action currentPrice tr
        = (Return (VObj [("success", VBool false);
                         ("reason", VStr "Validation error");
                         ("details", VStr (message e))]),
           (tr1 ++ [EConsole "error" [VStr "Validation error:";
                                      VStr (message e)]])%list)).
Proof.
  unfold validatePositionMovement, try_catch.
  destruct (validatePositionMovement_try position action currentPrice tr)
    as [[v|e] tr1]; split.
  - do 2 eexists; reflexivity.
  - intros e' tr1' H. discriminate.
  - run_monad. do 2 eexists; reflexivity.
  - intros e' tr1' H. injection H as <- <-. reflexivity.
Qed.

End Orchestrator.

(** A run of [generateAttestation] shows in the signer events. *)
Example generateAttestation_is_observed :
  filter signer_event
    (snd (@generateAttestation Sample.quiet_platform
            Sample.position "restake" 1 []))
  = [EStoreAttestation
       (@attestationData_new Sample.quiet_platform
          Sample.position "restake" 1 1700000000)].
Proof. reflexivity. Qed.

(** Handed the object the promise is fulfilled with, as [await] would, the
    same checks go on to the signer. *)
Example checks_reach_signer_when_awaited :
  @validatePositionMovement_checks Sample.quiet_platform
    (@validatePrices_body Sample.quiet_platform 2000 2000)
    Sample.position "restake" 2000 []
  = (Return
       (VObj [("success", VBool true);
              ("attestation",
               @attestationData_new Sample.quiet_platform
                 Sample.position "restake" 2000 1700000000)]),
     [EDateNow; EDateNow;
      EStoreAttestation
        (@attestationData_new Sample.quiet_platform
           Sample.position "restake" 2000 1700000000)]).
Proof. reflexivity. Qed.

(** Witness of C1: 3000 against Chainlink's 2000 is out of tolerance. *)
Lemma attestation_only_after_validation_witness :
  @validations_succeed Sample.quiet_platform Sample.position "restake" 3000 []
  = false
  /\ filter signer_event
       (snd (@validatePositionMovement Sample.quiet_platform
               Sample.position "restake" 3000 []))
     = [].
Proof.
  split; [reflexivity|].
  apply (proj1 (@attestation_only_after_validation Sample.quiet_platform
                  Sample.position "restake" 3000%float [] eq_refl)).
Defined.

(** Witness of C9: the aggregator cannot be reached. *)
Lemma validatePositionMovement_catches_witness :
  fst (@validatePositionMovement (Sample.platform Sample.rpc_down)
         Sample.position "restake" 2000 [])
  = Return (VObj [("success", VBool false);
                  ("reason", VStr "Validation error");
                  ("details", VStr "could not detect network")]).
Proof.
  rewrite (proj2 (@validatePositionMovement_catches
                    (Sample.platform Sample.rpc_down)
                    Sample.position "restake" 2000%float [])
             (Error "could not detect network")
             [ELatestRoundData default_aggregator;
              EConsole "error" [VStr "Error fetching Chainlink price:";
                                VStr "could not detect network"]]
             eq_refl).
  reflexivity.
Defined.

(** C6, at an input where the code departs from it: the action "hold" is
    neither "restake" nor "returnToPool", both prices are 2000, so the
    promise of [validatePrices] is fulfilled with [success: true] and the
    state check passes; still [validatePositionMovement] answers
    "Price validation failed" and nothing is signed or stored. *)
Theorem unrecognized_action_not_attested :
  settled_success (@validatePrices Sample.quiet_platform 2000 2000) = true
  /\ (forall tr,
         @validatePositionState Sample.quiet_platform
           Sample.position "hold" 2000 tr
         = (Return (VObj [("success", VBool true)]), (tr ++ [EDateNow])%list))
  /\ @validations_succeed Sample.quiet_platform Sample.position "hold" 2000 []
     = true
  /\ @validatePositionMovement Sample.quiet_platform
       Sample.position "hold" 2000 []
     = (Return (VObj [("success", VBool false);
                      ("reason", VStr "Price validation failed");
                      ("details", VUndefined)]),
        [ELatestRoundData default_aggregator]).
Proof.
  split; [reflexivity|]. split; [|split; reflexivity].
  intros tr. apply validatePositionState_other_action; discriminate.
Qed.

(** ** More on binary64 *)

Module F64More.

Lemma is_nan_of_spec (x : float) :
  Prim2SF x = S754_nan -> PrimFloat.is_nan x = true.
Proof.
  intros H. unfold PrimFloat.is_nan. rewrite eqb_spec, H. reflexivity.
Qed.

Lemma ltb_nan_r (x y : float) :
  PrimFloat.is_nan y = true -> (x <? y)%float = false.
Proof.
  intros H. rewrite ltb_spec, (F64.is_nan_true _ H). unfold SFltb.
  destruct (Prim2SF x); reflexivity.
Qed.

Lemma ltb_nan_l (x y : float) :
  PrimFloat.is_nan x = true -> (x <? y)%float = false.
Proof.
  intros H. rewrite ltb_spec, (F64.is_nan_true _ H). reflexivity.
Qed.

Lemma leb_nan_r (x y : float) :
  PrimFloat.is_nan y = true -> (x <=? y)%float = false.
Proof.
  intros H. rewrite leb_spec, (F64.is_nan_true _ H). unfold SFleb.
  destruct (Prim2SF x); reflexivity.
Qed.

Lemma leb_nan_l (x y : float) :
  PrimFloat.is_nan x = true -> (x <=? y)%float = false.
Proof.
  intros H. rewrite leb_spec, (F64.is_nan_true _ H). reflexivity.
Qed.

(** A positive finite number has relative difference 0 to itself. *)
Lemma self_difference (p : float) :
  positive_finite p = true -> (abs (p - p) / p)%float = 0%float.
Proof.
  intros H. destruct (F64.positive_finite_spec _ H) as (m & e & E).
  apply Prim2SF_inj. rewrite div_spec, abs_spec, sub_spec, E.
  change (Prim2SF 0) with (S754_zero false).
  unfold SF64sub, SFsub. rewrite Z.sub_diag. reflexivity.
Qed.

(** Against 0, a positive finite number has relative difference
    [Infinity]. *)
Lemma difference_to_zero (p : float) :
  positive_finite p = true -> (abs (p - 0) / 0)%float = infinity.
Proof.
  intros H. destruct (F64.positive_finite_spec _ H) as (m & e & E).
  apply Prim2SF_inj. rewrite div_spec, abs_spec, sub_spec, E.
  change (Prim2SF 0) with (S754_zero false).
  change (Prim2SF infinity) with (S754_infinity false).
  reflexivity.
Qed.

End F64More.

(** ** More on price reconciliation *)

Section ReconciliationEdges.

Context {P : Platform}.

(** X1: a price checked against itself passes under every tolerance that is
    not negative, whatever the (positive, finite) price. *)
Theorem validatePrices_same_price (price : float) :
  positive_finite price = true ->
  (tolerance <? 0)%float = false ->
  settled_success (validatePrices price price) = true.
Proof.
  intros Hp Ht. rewrite validatePrices_success. unfold priceDiff.
  rewrite (F64More.self_difference _ Hp), Ht. reflexivity.
Qed.

(** X2: a secondary price of 0 fails every positive finite primary price
    under every finite tolerance: the relative difference is [Infinity]. *)
Theorem validatePrices_zero_secondary (primary : float) :
  positive_finite primary = true ->
  (tolerance <? infinity)%float = true ->
  validatePrices primary 0
  = VPromise
      (Return
         (VObj [("success", VBool false);
                ("details",
                 VObj [("binancePrice", VNum primary);
                       ("chainlinkPrice", VNum 0);
                       ("difference", VNum infinity);
                       ("threshold", setting_value VALIDATION_THRESHOLD)])])).
Proof.
  intros Hp Ht. unfold validatePrices, validatePrices_body, priceDiff.
  rewrite (F64More.difference_to_zero _ Hp).
  fold tolerance. rewrite Ht. reflexivity.
Qed.

(** X3: the check fails open on NaN: when the relative difference or the
    tolerance is NaN, whether from a NaN price, from 0 against 0 or from a
    threshold setting that is not a number, the prices are accepted. *)
Theorem validatePrices_nan_passes (primary secondary : float) :
  PrimFloat.is_nan primary = true
  \/ PrimFloat.is_nan secondary = true
  \/ PrimFloat.is_nan tolerance = true ->
  settled_success (validatePrices primary secondary) = true.
Proof.
  intros H. rewrite validatePrices_success.
  assert (E : (tolerance <? priceDiff primary secondary)%float = false).
  { destruct H as [H|[H|H]].
    - apply F64More.ltb_nan_r. apply F64More.is_nan_of_spec.
      unfold priceDiff.
      rewrite div_spec, abs_spec, sub_spec, (F64.is_nan_true _ H).
      reflexivity.
    - apply F64More.ltb_nan_r. apply F64More.is_nan_of_spec.
      unfold priceDiff.
      rewrite div_spec, (F64.is_nan_true _ H). unfold SF64div.
      destruct (Prim2SF (abs (primary - secondary))); reflexivity.
    - apply F64More.ltb_nan_l, H. }
  rewrite E. reflexivity.
Qed.

End ReconciliationEdges.

Lemma validatePrices_same_price_witness :
  positive_finite 2000 = true
  /\ (@tolerance Sample.quiet_platform <? 0)%float = false
  /\ settled_success (@validatePrices Sample.quiet_platform 2000 2000) = true.
Proof.
  split; [reflexivity|]. split; [reflexivity|].
  apply (@validatePrices_same_price Sample.quiet_platform 2000%float);
    reflexivity.
Defined.

Lemma validatePrices_zero_secondary_witness :
  positive_finite 2000 = true
  /\ (@tolerance Sample.quiet_platform <? infinity)%float = true
  /\ settled_success (@validatePrices Sample.quiet_platform 2000 0) = false.
Proof.
  split; [reflexivity|]. split; [reflexivity|].
  rewrite (@validatePrices_zero_secondary Sample.quiet_platform 2000%float);
    reflexivity.
Defined.

Lemma validatePrices_nan_passes_witness :
  PrimFloat.is_nan nan = true
  /\ settled_success (@validatePrices Sample.quiet_platform nan 2000) = true.
Proof.
  split; [reflexivity|].
  apply (@validatePrices_nan_passes Sample.quiet_platform nan 2000%float).
  left. reflexivity.
Defined.

(** ** More on the position state check *)

Section PositionStateEdges.

Context {P : Platform}.

Lemma restake_verdict position currentPrice tr :
  returned_success
    (fst (validatePositionState position "restake" currentPrice tr))
  = negb (isActive position currentPrice)
    && negb (inactiveDuration position tr <? inactivityThreshold)%float
    && negb (isRestaked position).
Proof.
  unfold validatePositionState, isActive, inactiveDuration,
    inactivityThreshold.
  run_monad. simpl.
  destruct (_ && _); [reflexivity|].
  destruct (_ <? _)%float; [reflexivity|].
  destruct (isRestaked position); reflexivity.
Qed.

Lemma returnToPool_verdict position currentPrice tr :
  returned_success
    (fst (validatePositionState position "returnToPool" currentPrice tr))
  = isActive position currentPrice && isRestaked position.
Proof.
  unfold validatePositionState, isActive. run_monad. simpl.
  destruct (_ && _); [|reflexivity].
  destruct (isRestaked position); reflexivity.
Qed.

(** X4: at a given price and time, "restake" and "returnToPool" are never
    both accepted for the same position. *)
Theorem restake_and_returnToPool_exclusive
    (position : Position) (currentPrice : float) (tr : trace) :
  returned_success
    (fst (validatePositionState position "restake" currentPrice tr))
  && returned_success
       (fst (validatePositionState position "returnToPool" currentPrice tr))
  = false.
Proof.
  rewrite restake_verdict, returnToPool_verdict.
  destruct (isActive position currentPrice); [reflexivity|].
  apply andb_false_r.
Qed.

(** X5: a position that is already restaked is never accepted for
    "restake", at any price and after any time. *)
Theorem restaked_position_not_restaked_again
    (position : Position) (currentPrice : float) (tr : trace) :
  isRestaked position = true ->
  returned_success
    (fst (validatePositionState position "restake" currentPrice tr))
  = false.
Proof.
  intros H. rewrite restake_verdict, H. apply andb_false_r.
Qed.

(** X6: when the inactivity threshold is NaN, as it is when
    POSITION_INACTIVITY_DAYS is set to a text that is not a number, the
    waiting time is not enforced: "restake" is accepted for every position
    that is out of range and not restaked, however recently it was active. *)
Theorem nan_threshold_skips_waiting
    (position : Position) (currentPrice : float) (tr : trace) :
  PrimFloat.is_nan inactivityThreshold = true ->
  returned_success
    (fst (validatePositionState position "restake" currentPrice tr))
  = negb (isActive position currentPrice) && negb (isRestaked position).
Proof.
  intros H. rewrite restake_verdict, (F64More.ltb_nan_r _ _ H).
  rewrite andb_true_r. reflexivity.
Qed.

(** X7: a NaN price counts as out of range: "returnToPool" is refused, and
    "restake" depends on the waiting time and the restaked flag only. *)
Theorem nan_price_out_of_range
    (position : Position) (currentPrice : float) (tr : trace) :
  PrimFloat.is_nan currentPrice = true ->
  returned_success
    (fst (validatePositionState position "returnToPool" currentPrice tr))
  = false
  /\ returned_success
       (fst (validatePositionState position "restake" currentPrice tr))
     = negb (inactiveDuration position tr <? inactivityThreshold)%float
       && negb (isRestaked position).
Proof.
  intros H.
  assert (Ha : isActive position currentPrice = false).
  { unfold isActive. rewrite (F64More.leb_nan_r _ _ H). reflexivity. }
  rewrite returnToPool_verdict, restake_verdict, Ha. split; reflexivity.
Qed.

(** X8: "returnToPool" looks at neither the clock nor the time the position
    was last active: two positions with the same ticks and restaked flag get
    the same answer at the same price, whenever asked. *)
Theorem returnToPool_ignores_time
    (position position' : Position) (currentPrice : float) (tr tr' : trace) :
  lowerTick position = lowerTick position' ->
  upperTick position = upperTick position' ->
  isRestaked position = isRestaked position' ->
  fst (validatePositionState position "returnToPool" currentPrice tr)
  = fst (validatePositionState position' "returnToPool" currentPrice tr').
Proof.
  intros Hl Hu Hr. unfold validatePositionState. run_monad. simpl.
  rewrite Hl, Hu, Hr.
  destruct (negb _); [reflexivity|].
  destruct (negb _); reflexivity.
Qed.

End PositionStateEdges.

Lemma restaked_position_not_restaked_again_witness :
  isRestaked Scenario.restaked_position = true
  /\ returned_success
       (fst (@validatePositionState Sample.quiet_platform
               Scenario.restaked_position "restake" 1 []))
     = false.
Proof.
  split; [reflexivity|].
  apply (@restaked_position_not_restaked_again Sample.quiet_platform
           Scenario.restaked_position 1%float []).
  reflexivity.
Defined.

(** POSITION_INACTIVITY_DAYS is "seven"; the position was active one second
    before the check and is accepted for "restake" all the same. *)
Lemma nan_threshold_skips_waiting_witness :
  PrimFloat.is_nan
    (@inactivityThreshold
       (Scenario.platform Sample.quiet (Some "seven") (Return tt)
          (Return "0xsig")))
  = true
  /\ returned_success
       (fst (@validatePositionState
               (Scenario.platform Sample.quiet (Some "seven") (Return tt)
                  (Return "0xsig"))
               {| id := "0x03"; owner := "0xOwner";
                  lowerTick := 100; upperTick := 200;
                  isRestaked := false;
                  lastActiveTimestamp := 1699999999 |}
               "restake" 1 []))
     = true.
Proof.
  split; [reflexivity|].
  rewrite (@nan_threshold_skips_waiting
             (Scenario.platform Sample.quiet (Some "seven") (Return tt)
                (Return "0xsig")));
    reflexivity.
Defined.

Lemma nan_price_out_of_range_witness :
  PrimFloat.is_nan nan = true
  /\ returned_success
       (fst (@validatePositionState Sample.quiet_platform
               Scenario.restaked_position "returnToPool" nan []))
     = false.
Proof.
  split; [reflexivity|].
  apply (@nan_price_out_of_range Sample.quiet_platform
           Scenario.restaked_position nan []).
  reflexivity.
Defined.

Lemma returnToPool_ignores_time_witness :
  fst (@validatePositionState Sample.quiet_platform
         Sample.position "returnToPool" 1.015 [])
  = fst (@validatePositionState Sample.quiet_platform
           {| id := "0x04"; owner := "0xOther";
              lowerTick := 100; upperTick := 200;
              isRestaked := false; lastActiveTimestamp := 5 |}
           "returnToPool" 1.015 [EDateNow; EDateNow]).
Proof.
  apply (@returnToPool_ignores_time Sample.quiet_platform); reflexivity.
Defined.

(** ** More on the orchestrator *)

Lemma clock_reads_app (l l' : trace) :
  clock_reads (l ++ l')%list = clock_reads l + clock_reads l'.
Proof.
  induction l as [|e l IH]; [reflexivity|].
  destruct e; simpl; rewrite IH; reflexivity.
Qed.

Section OrchestratorEdges.

Context {P : Platform}.

(** X9: the answer of [validatePositionMovement] does not depend on the
    position, the action or the current price: none of them is looked at
    before the function returns. *)
Theorem validatePositionMovement_ignores_inputs
    (position position' : Position) (action action' : string)
    (currentPrice currentPrice' : float) (tr : trace) :
  validatePositionMovement position action currentPrice tr
  = validatePositionMovement position' action' currentPrice' tr.
Proof.
  rewrite !validatePositionMovement_run. reflexivity.
Qed.

(** X10: no call of [validatePositionMovement] returns [success: true] or an
    attestation, and none reads the clock: the state check and the signer
    are never run. *)
Theorem validatePositionMovement_never_succeeds
    (position : Position) (action : string) (currentPrice : float)
    (tr : trace) :
  exists v tr',
    validatePositionMovement position action currentPrice tr = (Return v, tr')
    /\ get_prop "success" v = Return (VBool false)
    /\ has_prop "attestation" v = false
    /\ clock_reads tr' = clock_reads tr.
Proof.
  rewrite validatePositionMovement_run.
  pose proof (getChainlinkPrice_run tr) as H.
  destruct (latestRoundData aggregatorAddress); rewrite H;
    do 2 eexists; (split; [reflexivity|]); (split; [reflexivity|]);
    (split; [reflexivity|]); rewrite !clock_reads_app; simpl; lia.
Qed.

(** X11: when the aggregator cannot be read, the provider's error is logged
    twice, by [getChainlinkPrice] and by the orchestrator, and comes back as
    the details of a "Validation error". *)
Theorem unreachable_aggregator_reported
    (position : Position) (action : string) (currentPrice : float)
    (tr : trace) (e : error) :
  latestRoundData aggregatorAddress = Throw e ->
  validatePositionMovement position action currentPrice tr
  = (Return (VObj [("success", VBool false);
                   ("reason", VStr "Validation error");
                   ("details", VStr (message e))]),
     (tr ++ [ELatestRoundData aggregatorAddress;
             EConsole "error" [VStr "Error fetching Chainlink price:";
                               VStr (message e)];
             EConsole "error" [VStr "Validation error:";
                               VStr (message e)]])%list).
Proof.
  intros H. rewrite validatePositionMovement_run.
  pose proof (getChainlinkPrice_run tr) as Hrun. rewrite H in Hrun.
  rewrite Hrun. rewrite <- !app_assoc. reflexivity.
Qed.

End OrchestratorEdges.

Lemma unreachable_aggregator_reported_witness :
  @latestRoundData (Sample.platform Sample.rpc_down)
    (@aggregatorAddress (Sample.platform Sample.rpc_down))
  = Throw (Error "could not detect network")
  /\ fst (@validatePositionMovement (Sample.platform Sample.rpc_down)
            Sample.position "restake" 2000 [])
     = Return (VObj [("success", VBool false);
                     ("reason", VStr "Validation error");
                     ("details", VStr "could not detect network")]).
Proof.
  split; [reflexivity|].
  rewrite (@unreachable_aggregator_reported (Sample.platform Sample.rpc_down)
             Sample.position "restake" 2000%float []
             (Error "could not detect network") eq_refl).
  reflexivity.
Defined.

(** ** The standalone price check *)

Section MultiplePricesFacts.

Context {P : Platform} {O : Oracle}.

Lemma validateMultiplePrices_run (tr : trace) :
  validateMultiplePrices tr
  = let caught e tr :=
      (Return (VObj [("success", VBool false); ("error", VStr (message e))]),
       (tr ++ [EConsole "error" [VStr "Error validating prices:";
                                 VStr (message e)]])%list) in
    match getPrice "ETHUSDT" with
    | Throw e => caught e tr
    | Return binancePrice =>
        match getChainlinkPrice tr with
        | (Throw e, tr1) => caught e tr1
        | (Return chainlinkPrice, tr1) =>
            match get_prop "price" binancePrice with
            | Throw e => caught e tr1
            | Return price =>
                let binance := parseFloat (ToString price) in
                (Return
                   (VObj [("success", VUndefined);
                          ("averagePrice",
                           VNum ((binance + chainlinkPrice) / 2)%float);
                          ("sources",
                           VObj [("binance", VNum binance);
                                 ("chainlink", VNum chainlinkPrice)]);
                          ("validation",
                           validatePrices binance chainlinkPrice)]),
                 tr1)
            end
        end
    end.
Proof.
  unfold validateMultiplePrices, validateMultiplePrices_try.
  unfold try_catch, bind at 1, lift at 1.
  destruct (getPrice "ETHUSDT") as [binancePrice|e]; [|reflexivity].
  unfold bind at 1.
  destruct (getChainlinkPrice tr) as [[chainlinkPrice|e] tr1]; [|reflexivity].
  run_monad.
  destruct (get_prop "price" binancePrice) as [price|e]; reflexivity.
Qed.

(** X12: [validateMultiplePrices] never throws and never answers
    [success: true], whatever the two sources say. *)
Theorem validateMultiplePrices_never_succeeds (tr : trace) :
  exists v tr',
    validateMultiplePrices tr = (Return v, tr')
    /\ returned_success (Return v) = false.
Proof.
  rewrite validateMultiplePrices_run. cbv zeta.
  destruct (getPrice "ETHUSDT") as [binancePrice|e];
    [|do 2 eexists; split; reflexivity].
  destruct (getChainlinkPrice tr) as [[chainlinkPrice|e] tr1];
    [|do 2 eexists; split; reflexivity].
  destruct (get_prop "price" binancePrice) as [price|e];
    do 2 eexists; split; reflexivity.
Qed.

(** X13: when both sources answer, the result carries [success: undefined],
    the mean of the two prices, both prices, and under [validation] the
    promise of [validatePrices], still to be awaited. *)
Theorem validateMultiplePrices_both_sources
    (tr : trace) (binancePrice price : value) (answer : Z) :
  getPrice "ETHUSDT" = Return binancePrice ->
  get_prop "price" binancePrice = Return price ->
  latestRoundData aggregatorAddress = Return answer ->
  let binance := parseFloat (ToString price) in
  let chainlink := parseFloat (formatUnits answer 8) in
  validateMultiplePrices tr
  = (Return
       (VObj [("success", VUndefined);
              ("averagePrice", VNum ((binance + chainlink) / 2)%float);
              ("sources",
               VObj [("binance", VNum binance);
                     ("chainlink", VNum chainlink)]);
              ("validation",
               VPromise (Return (validatePrices_body binance chainlink)))]),
     (tr ++ [ELatestRoundData aggregatorAddress])%list).
Proof.
  intros Hg Hp Hl binance chainlink. rewrite validateMultiplePrices_run.
  pose proof (getChainlinkPrice_run tr) as Hrun. rewrite Hl in Hrun.
  cbv zeta. rewrite Hg, Hrun, Hp. reflexivity.
Qed.

(** X14: when the primary source fails, its error is the answer's [error]
    and the aggregator is not asked. *)
Theorem validateMultiplePrices_primary_down (tr : trace) (e : error) :
  getPrice "ETHUSDT" = Throw e ->
  validateMultiplePrices tr
  = (Return (VObj [("success", VBool false); ("error", VStr (message e))]),
     (tr ++ [EConsole "error" [VStr "Error validating prices:";
                               VStr (message e)]])%list).
Proof.
  intros H. rewrite validateMultiplePrices_run. cbv zeta. rewrite H.
  reflexivity.
Qed.

End MultiplePricesFacts.

Lemma validateMultiplePrices_both_sources_witness :
  fst (@validateMultiplePrices Sample.quiet_platform (Scenario.binance "2010")
         [])
  = Return
      (VObj [("success", VUndefined);
             ("averagePrice", VNum 2005);
             ("sources",
              VObj [("binance", VNum 2010); ("chainlink", VNum 2000)]);
             ("validation",
              VPromise (Return (VObj [("success", VBool true)])))]).
Proof.
  rewrite (@validateMultiplePrices_both_sources
             Sample.quiet_platform (Scenario.binance "2010") []
             (VObj [("price", VStr "2010")]) (VStr "2010") 200000000000%Z
             eq_refl eq_refl eq_refl).
  reflexivity.
Defined.

Lemma validateMultiplePrices_primary_down_witness :
  @validateMultiplePrices Sample.quiet_platform Scenario.binance_down []
  = (Return (VObj [("success", VBool false);
                   ("error", VStr "Request failed with status code 451")]),
     [EConsole "error" [VStr "Error validating prices:";
                        VStr "Request failed with status code 451"]]).
Proof.
  apply (@validateMultiplePrices_primary_down
           Sample.quiet_platform Scenario.binance_down []
           (Error "Request failed with status code 451")).
  reflexivity.
Defined.

(** ** More on the verifier *)

Section VerifierEdges.

Context {P : Platform}.

(** X15: once the signature is there and the digest is recomputed, the
    answer is decided by the recovery and the registry: [valid] is whatever
    the registry says of the recovered address, and an error of either comes
    back as [valid: false] with its message. *)
Theorem verifyAttestation_verdict
    (attestation : value) (tr : trace) (signature : value)
    (digest : string) (tr1 : trace) :
  get_prop "signature" attestation = Return signature ->
  to_boolean signature = true ->
  recreate_messageHash attestation tr = (Return digest, tr1) ->
  verifyAttestation attestation tr = verdict digest signature tr1.
Proof.
  intros Hs Ht Hd. unfold verifyAttestation, verifyAttestation_try, verdict.
  unfold try_catch, bind at 1, lift at 1. rewrite Hs, Ht. cbn [negb].
  rewrite (bind_return _ _ _ _ _ Hd). run_monad.
  destruct (verifyMessage digest signature) as [address|e]; [|reflexivity].
  destruct (isApprovedValidator address); reflexivity.
Qed.

(** X16: a signed attestation without [priceAtValidation] is refused before
    anything is hashed, recovered or looked up: reading [toString] off
    [undefined] throws, and the answer is [valid: false] with that message. *)
Theorem verifyAttestation_missing_price
    (attestation : value) (tr : trace) (signature : value) :
  get_prop "signature" attestation = Return signature ->
  to_boolean signature = true ->
  get_prop "priceAtValidation" attestation = Return VUndefined ->
  verifyAttestation attestation tr
  = (Return
       (VObj [("valid", VBool false);
              ("reason",
               VStr "Cannot read properties of undefined (reading 'toString')")]),
     (tr ++ [EConsole "error"
               [VStr "Error verifying attestation:";
                VStr "Cannot read properties of undefined (reading 'toString')"]]
     )%list).
Proof.
  intros Hs Ht Hp. unfold verifyAttestation, verifyAttestation_try.
  unfold try_catch, bind at 1, lift at 1. rewrite Hs, Ht. cbn [negb].
  unfold recreate_messageHash.
  destruct attestation; try discriminate; try (simpl in Hs;
    injection Hs as <-; discriminate).
  run_monad. cbn [get_prop] in *. injection Hp as Hp. rewrite Hp.
  reflexivity.
Qed.

(** X17: [verifyAttestation] never builds a wallet, signs, posts or stores:
    it only reads. *)
Theorem verifyAttestation_writes_nothing (attestation : value) (tr : trace) :
  filter writing_event (snd (verifyAttestation attestation tr))
  = filter writing_event tr.
Proof.
  unfold verifyAttestation, verifyAttestation_try, recreate_messageHash,
    messageHash.
  run_monad.
  repeat match goal with
         | |- context [match ?o with Return _ => _ | Throw _ => _ end] =>
             destruct o
         | |- context [if ?c then _ else _] => destruct c
         end;
    cbn [snd]; rewrite ?filter_app; simpl; rewrite ?app_nil_r; reflexivity.
Qed.

End VerifierEdges.

Lemma verifyAttestation_verdict_witness :
  fst (@verifyAttestation (Sample.platform Scenario.all_up)
         Sample.garbled_attestation [])
  = Return (VObj [("valid", VBool true);
                  ("signer", VStr "0xValidator");
                  ("isApprovedValidator", VBool true)]).
Proof.
  rewrite (@verifyAttestation_verdict (Sample.platform Scenario.all_up)
             Sample.garbled_attestation [] (VStr "0xnonsense") "0xdigest"
             [EKeccak [VStr "RESTAKING_ATTESTATION"; VStr "0x01";
                       VStr "0xOwner"; VStr "restake"; VNum 1700000000;
                       VBigInt 2000000000000000000000]]
             eq_refl eq_refl eq_refl).
  reflexivity.
Defined.

Lemma verifyAttestation_missing_price_witness :
  fst (@verifyAttestation Sample.quiet_platform
         (VObj [("positionId", VStr "0x01"); ("signature", VStr "0xsig")]) [])
  = Return
      (VObj [("valid", VBool false);
             ("reason",
              VStr "Cannot read properties of undefined (reading 'toString')")]).
Proof.
  rewrite (@verifyAttestation_missing_price Sample.quiet_platform
             (VObj [("positionId", VStr "0x01"); ("signature", VStr "0xsig")])
             [] (VStr "0xsig") eq_refl eq_refl eq_refl).
  reflexivity.
Defined.

(** ** More on the signer *)

Section SignerEdges.

Context {P : Platform}.

(** A returning call went through the three steps. *)
Lemma generateAttestation_returns position action currentPrice tr att tr' :
  generateAttestation position action currentPrice tr = (Return att, tr') ->
  exists att1 tr1 tr2,
    sign_attestation (attestationData_at position action currentPrice tr)
      (tr ++ [EDateNow])%list = (Return att1, tr1)
    /\ submit_external att1 tr1 = (Return att, tr2)
    /\ storeAttestation att = Return tt
    /\ tr' = (tr2 ++ [EStoreAttestation att])%list.
Proof.
  unfold generateAttestation. unfold bind at 1. unfold now.
  destruct (sign_attestation _ _) as [[att1|e] tr1] eqn:Hs.
  2: { rewrite (bind_throw _ _ _ _ _ Hs). discriminate. }
  rewrite (bind_return _ _ _ _ _ Hs).
  destruct (submit_external_total att1 tr1) as (att2 & tr2 & Hsub).
  rewrite (bind_return _ _ _ _ _ Hsub).
  unfold bind, call, ret.
  destruct (storeAttestation att2) as [[]|e] eqn:Hst; [|discriminate].
  intros H. injection H as <- <-.
  exists att1, tr1, tr2. repeat split; assumption.
Qed.

Lemma submit_external_shape (a a' : value) (tr tr' : trace) :
  submit_external a tr = (Return a', tr') ->
  a' = a \/ exists data, a' = set_prop "externalValidation" data a.
Proof.
  unfold submit_external.
  destruct VALIDATION_API_URL;
    try (intros H; injection H as <- _; left; reflexivity).
  run_monad.
  repeat match goal with
         | |- context [match ?o with Return _ => _ | Throw _ => _ end] =>
             destruct o
         end; intros H; injection H as <- _;
    try (left; reflexivity); right; eexists; reflexivity.
Qed.

Lemma sign_attestation_stores_nothing (a : value) (tr : trace) :
  filter outbound_event (snd (sign_attestation a tr))
  = filter outbound_event tr.
Proof.
  unfold sign_attestation.
  destruct env_VALIDATOR_PRIVATE_KEY as [key|];
    [destruct (key =? EmptyString)|]; try reflexivity.
  unfold messageHash. run_monad.
  repeat match goal with
         | |- context [match ?o with Return _ => _ | Throw _ => _ end] =>
             destruct o
         end;
    cbn [snd]; rewrite ?filter_app; simpl; rewrite ?app_nil_r; reflexivity.
Qed.

Lemma submit_external_stores_nothing (a : value) (tr : trace) :
  filter store_event (snd (submit_external a tr)) = filter store_event tr.
Proof.
  unfold submit_external.
  destruct VALIDATION_API_URL; try reflexivity.
  run_monad.
  repeat match goal with
         | |- context [match ?o with Return _ => _ | Throw _ => _ end] =>
             destruct o
         end;
    cbn [snd]; rewrite ?filter_app; simpl; rewrite ?app_nil_r; reflexivity.
Qed.

Lemma outbound_store (l l' : trace) :
  filter outbound_event l = filter outbound_event l' ->
  filter store_event l = filter store_event l'.
Proof.
  intros H.
  assert (E : forall l : trace,
             filter store_event l = filter store_event (filter outbound_event l)).
  { clear. induction l as [|e l IH]; [reflexivity|].
    destruct e; simpl; rewrite IH; reflexivity. }
  rewrite (E l), (E l'), H. reflexivity.
Qed.

(** X18: what [generateAttestation] returns is what it stored: a returning
    call hands the store exactly one attestation, as its last act, and that
    attestation is the one returned. *)
Theorem generateAttestation_stores_what_it_returns
    (position : Position) (action : string) (currentPrice : float)
    (tr : trace) (att : value) (tr' : trace) :
  generateAttestation position action currentPrice tr = (Return att, tr') ->
  (exists tr2, tr' = (tr2 ++ [EStoreAttestation att])%list)
  /\ filter store_event tr'
     = (filter store_event tr ++ [EStoreAttestation att])%list.
Proof.
  intros H.
  destruct (generateAttestation_returns _ _ _ _ _ _ H)
    as (att1 & tr1 & tr2 & Hs & Hsub & _ & ->).
  split; [eexists; reflexivity|].
  rewrite filter_app. simpl. f_equal.
  pose proof (submit_external_stores_nothing att1 tr1) as E2.
  rewrite Hsub in E2. cbn [snd] in E2. rewrite E2.
  pose proof (sign_attestation_stores_nothing
                (attestationData_at position action currentPrice tr)
                (tr ++ [EDateNow])%list) as E1.
  rewrite Hs in E1. cbn [snd] in E1.
  rewrite (outbound_store _ _ E1), filter_app. simpl. apply app_nil_r.
Qed.

(** X19: when the signing step throws (the key is refused, the price does
    not convert, the signature fails), [generateAttestation] throws the same
    error and nothing is posted or stored. *)
Theorem generateAttestation_signing_fails
    (position : Position) (action : string) (currentPrice : float)
    (tr : trace) (e : error) (tr1 : trace) :
  sign_attestation (attestationData_at position action currentPrice tr)
    (tr ++ [EDateNow])%list = (Throw e, tr1) ->
  generateAttestation position action currentPrice tr = (Throw e, tr1)
  /\ filter outbound_event tr1 = filter outbound_event tr.
Proof.
  intros Hs. split.
  - unfold generateAttestation. unfold bind at 1. unfold now.
    apply (bind_throw _ _ _ _ _ Hs).
  - pose proof (sign_attestation_stores_nothing
                  (attestationData_at position action currentPrice tr)
                  (tr ++ [EDateNow])%list) as E.
    rewrite Hs in E. cbn [snd] in E. rewrite E, filter_app. simpl.
    apply app_nil_r.
Qed.

(** X20: when the external endpoint answers, the attestation is posted
    without [externalValidation], and stored and returned with the answer's
    [data] under it. *)
Theorem generateAttestation_records_external_validation
    (position : Position) (action : string) (currentPrice : float)
    (tr : trace) (att1 : value) (tr1 : trace)
    (url : string) (response data : value) :
  sign_attestation (attestationData_at position action currentPrice tr)
    (tr ++ [EDateNow])%list = (Return att1, tr1) ->
  VALIDATION_API_URL = VStr url ->
  axios_post url att1 = Return response ->
  get_prop "data" response = Return data ->
  storeAttestation (set_prop "externalValidation" data att1) = Return tt ->
  has_prop "externalValidation" att1 = false
  /\ generateAttestation position action currentPrice tr
     = (Return (set_prop "externalValidation" data att1),
        (tr1 ++ [EAxiosPost url att1;
                 EStoreAttestation
                   (set_prop "externalValidation" data att1)])%list).
Proof.
  intros Hs Hu Hp Hd Hst.
  split; [eapply fresh_attestation_no_externalValidation; eassumption|].
  unfold generateAttestation. unfold bind at 1. unfold now.
  rewrite (bind_return _ _ _ _ _ Hs).
  unfold submit_external. rewrite Hu. run_monad. rewrite Hp, Hd, Hst.
  rewrite <- app_assoc. reflexivity.
Qed.

(** X21: signing and external validation add fields and change none: the
    returned attestation names the position, owner, action and price the
    call was given, the second of the clock reading, and the position's
    ticks, flag and last active time under [validationDetails]. *)
Theorem generateAttestation_carries_decision
    (position : Position) (action : string) (currentPrice : float)
    (tr : trace) (att : value) (tr' : trace) :
  generateAttestation position action currentPrice tr = (Return att, tr') ->
  get_prop "positionId" att = Return (VStr (id position))
  /\ get_prop "owner" att = Return (VStr (owner position))
  /\ get_prop "action" att = Return (VStr action)
  /\ get_prop "timestamp" att
     = Return (VNum (Math_floor (Date_now (clock_reads tr) / 1000)))
  /\ get_prop "priceAtValidation" att = Return (VNum currentPrice)
  /\ get_prop "validationDetails" att
     = Return
         (VObj [("lowerTick", VNum (lowerTick position));
                ("upperTick", VNum (upperTick position));
                ("isRestaked", VBool (isRestaked position));
                ("lastActiveTimestamp",
                 VNum (lastActiveTimestamp position))]).
Proof.
  intros H.
  destruct (generateAttestation_returns _ _ _ _ _ _ H)
    as (att1 & tr1 & tr2 & Hs & Hsub & _ & _).
  destruct (sign_attestation_shape _ _ _ _ Hs) as [->|[s ->]];
    destruct (submit_external_shape _ _ _ _ Hsub) as [->|[d ->]];
    repeat split; reflexivity.
Qed.

End SignerEdges.

Lemma generateAttestation_stores_what_it_returns_witness :
  filter store_event
    (snd (@generateAttestation (Sample.platform Scenario.all_up)
            Sample.position "restake" 2000 []))
  = [EStoreAttestation
       (set_prop "externalValidation" (VObj [("ok", VBool true)])
          (set_prop "signature" (VStr "signed:0xdigest")
             (@attestationData_at (Sample.platform Scenario.all_up)
                Sample.position "restake" 2000 [])))].
Proof.
  apply (proj2 (@generateAttestation_stores_what_it_returns
                  (Sample.platform Scenario.all_up)
                  Sample.position "restake" 2000%float [] _ _ eq_refl)).
Defined.

(** The wallet refuses the key. *)
Lemma generateAttestation_signing_fails_witness :
  @generateAttestation
    (Scenario.platform (Sample.endpoint_down (Return tt)) None
       (Throw (Error "invalid private key")) (Return "0xsig"))
    Sample.position "restake" 2000 []
  = (Throw (Error "invalid private key"), [EDateNow; ENewWallet "0xkey"]).
Proof.
  apply (proj1 (@generateAttestation_signing_fails
                  (Scenario.platform (Sample.endpoint_down (Return tt)) None
                     (Throw (Error "invalid private key")) (Return "0xsig"))
                  Sample.position "restake" 2000%float []
                  (Error "invalid private key")
                  [EDateNow; ENewWallet "0xkey"] eq_refl)).
Defined.

Lemma generateAttestation_records_external_validation_witness :
  exists att1 tr',
    @generateAttestation (Sample.platform Scenario.all_up)
      Sample.position "restake" 2000 []
    = (Return (set_prop "externalValidation" (VObj [("ok", VBool true)]) att1),
       tr')
    /\ has_prop "externalValidation" att1 = false
    /\ has_prop "signature" att1 = true.
Proof.
  do 2 eexists. split; [|split].
  - eapply (proj2 (@generateAttestation_records_external_validation
                     (Sample.platform Scenario.all_up)
                     Sample.position "restake" 2000%float [] _ _
                     "https://validation.example/attest"
                     (VObj [("data", VObj [("ok", VBool true)])])
                     (VObj [("ok", VBool true)])
                     eq_refl eq_refl eq_refl eq_refl eq_refl)).
  - reflexivity.
  - reflexivity.
Defined.

Lemma generateAttestation_carries_decision_witness :
  exists att tr',
    @generateAttestation (Sample.platform Scenario.all_up)
      Sample.position "restake" 2000 [] = (Return att, tr')
    /\ has_prop "signature" att = true
    /\ has_prop "externalValidation" att = true
    /\ get_prop "priceAtValidation" att = Return (VNum 2000).
Proof.
  do 2 eexists. split; [cbv; reflexivity|]. split; [reflexivity|].
  split; [reflexivity|].
  apply (@generateAttestation_carries_decision
           (Sample.platform Scenario.all_up)
           Sample.position "restake" 2000%float [] _ _ eq_refl).
Defined.

(** ** Signing, then verifying *)

Section RoundTrip.

Context {P : Platform}.

(** With a key, a returning signing step has built the values, hashed them
    and put the signature of the digest on the attestation. *)
Lemma sign_attestation_signed
    position action currentPrice timestamp key tr att1 tr1 :
  env_VALIDATOR_PRIVATE_KEY = Some key ->
  (key =? EmptyString) = false ->
  sign_attestation
    (attestationData_new position action currentPrice timestamp) tr
  = (Return att1, tr1) ->
  exists units digest signature,
    parseUnits (Number_toString currentPrice) 18 = Return units
    /\ solidityPackedKeccak256 attestation_types
         [VStr "RESTAKING_ATTESTATION"; VStr (id position);
          VStr (owner position); VStr action; VNum timestamp; VBigInt units]
       = Return digest
    /\ signMessage key digest = Return signature
    /\ In (ESignMessage digest) tr1
    /\ att1
       = set_prop "signature" (VStr signature)
           (attestationData_new position action currentPrice timestamp).
Proof.
  intros Hk Hne. unfold sign_attestation. rewrite Hk, Hne.
  unfold messageHash, attestationData_new. run_monad. simpl.
  destruct (Wallet key); [|discriminate].
  destruct (parseUnits _ 18) as [units|]; [|discriminate].
  destruct (solidityPackedKeccak256 _ _) as [digest|] eqn:Hd; [|discriminate].
  destruct (signMessage key digest) as [signature|] eqn:Hsig; [|discriminate].
  intros H. injection H as <- <-.
  exists units, digest, signature. repeat split; try assumption.
  apply in_or_app. right. left. reflexivity.
Qed.

(** X22: signer and verifier agree on the digest.  When a key is configured
    and [generateAttestation] returns, the verifier, given that attestation,
    hashes the very values the signer hashed and hands the recovery the
    digest that was signed together with the signature on the attestation;
    its answer is the verdict on those two.  (An empty signature counts as
    none.) *)
Theorem signed_attestation_verifies
    (position : Position) (action : string) (currentPrice : float)
    (tr : trace) (att : value) (tr' : trace) (key : string) :
  env_VALIDATOR_PRIVATE_KEY = Some key ->
  (key =? EmptyString) = false ->
  generateAttestation position action currentPrice tr = (Return att, tr') ->
  exists units digest signature,
    let values :=
      [VStr "RESTAKING_ATTESTATION"; VStr (id position);
       VStr (owner position); VStr action;
       VNum (Math_floor (Date_now (clock_reads tr) / 1000));
       VBigInt units] in
    solidityPackedKeccak256 attestation_types values = Return digest
    /\ signMessage key digest = Return signature
    /\ In (ESignMessage digest) tr'
    /\ get_prop "signature" att = Return (VStr signature)
    /\ forall tr2,
         verifyAttestation att tr2
         = if signature =? EmptyString
           then (Return (VObj [("valid", VBool false);
                               ("reason",
                                VStr "No signature on attestation")]),
                 tr2)
           else verdict digest (VStr signature)
                  (tr2 ++ [EKeccak values])%list.
Proof.
  intros Hk Hne H.
  destruct (generateAttestation_returns _ _ _ _ _ _ H)
    as (att1 & tr1 & tr2 & Hs & Hsub & _ & ->).
  destruct (sign_attestation_signed _ _ _ _ _ _ _ _ Hk Hne Hs)
    as (units & digest & signature & Hu & Hd & Hsig & Hin & ->).
  exists units, digest, signature. cbv zeta.
  split; [exact Hd|]. split; [exact Hsig|]. split.
  { apply in_or_app. left.
    destruct (submit_external_trace
                (set_prop "signature" (VStr signature)
                   (attestationData_new position action currentPrice
                      (Math_floor (Date_now (clock_reads tr) / 1000))))
                tr1) as (a' & l & E).
    rewrite E in Hsub. injection Hsub as _ <-.
    apply in_or_app. left. exact Hin. }
  assert (Hv : forall a,
             a = set_prop "signature" (VStr signature)
                   (attestationData_new position action currentPrice
                      (Math_floor (Date_now (clock_reads tr) / 1000)))
             \/ (exists d,
                    a = set_prop "externalValidation" d
                          (set_prop "signature" (VStr signature)
                             (attestationData_new position action currentPrice
                                (Math_floor
                                   (Date_now (clock_reads tr) / 1000))))) ->
             get_prop "signature" a = Return (VStr signature)
             /\ forall tr2,
                 verifyAttestation a tr2
                 = if signature =? EmptyString
                   then (Return (VObj [("valid", VBool false);
                                       ("reason",
                                        VStr "No signature on attestation")]),
                         tr2)
                   else verdict digest (VStr signature)
                          (tr2 ++
                           [EKeccak
                              [VStr "RESTAKING_ATTESTATION";
                               VStr (id position); VStr (owner position);
                               VStr action;
                               VNum (Math_floor
                                       (Date_now (clock_reads tr) / 1000));
                               VBigInt units]])%list).
  { intros a Ha. split.
    - destruct Ha as [->|[d ->]]; reflexivity.
    - intros tr3.
      unfold verifyAttestation, verifyAttestation_try, recreate_messageHash,
        messageHash, verdict.
      destruct Ha as [->|[d ->]]; unfold attestationData_new; run_monad;
        simpl; destruct (signature =? EmptyString); simpl;
        try reflexivity; rewrite Hu, Hd;
        destruct (verifyMessage digest (VStr signature)) as [address|];
        try reflexivity;
        destruct (isApprovedValidator address); reflexivity. }
  apply Hv.
  destruct (submit_external_shape _ _ _ _ Hsub) as [->|[d ->]];
    [left; reflexivity|right; exists d; reflexivity].
Qed.

(** X23: without a key, what [generateAttestation] returns is refused by
    [verifyAttestation] as unsigned, no service being asked. *)
Theorem unsigned_attestation_is_refused
    (position : Position) (action : string) (currentPrice : float)
    (tr : trace) (att : value) (tr' : trace) :
  to_boolean (env_value env_VALIDATOR_PRIVATE_KEY) = false ->
  generateAttestation position action currentPrice tr = (Return att, tr') ->
  has_prop "signature" att = false
  /\ forall tr2,
       verifyAttestation att tr2
       = (Return (VObj [("valid", VBool false);
                        ("reason", VStr "No signature on attestation")]),
          tr2).
Proof.
  intros Hk H.
  destruct (generateAttestation_returns _ _ _ _ _ _ H)
    as (att1 & tr1 & tr2 & Hs & Hsub & _ & _).
  assert (E : att1 = attestationData_at position action currentPrice tr).
  { revert Hs. unfold sign_attestation.
    destruct env_VALIDATOR_PRIVATE_KEY as [key|].
    - simpl in Hk. apply negb_false_iff in Hk. rewrite Hk.
      intros Hs. injection Hs as <- _. reflexivity.
    - intros Hs. injection Hs as <- _. reflexivity. }
  subst att1.
  destruct (submit_external_shape _ _ _ _ Hsub) as [->|[d ->]];
    split; try reflexivity; intros tr3; reflexivity.
Qed.

End RoundTrip.

Lemma signed_attestation_verifies_witness :
  exists att tr',
    @generateAttestation (Sample.platform Scenario.all_up)
      Sample.position "restake" 2000 [] = (Return att, tr')
    /\ exists digest signature,
         In (ESignMessage digest) tr'
         /\ get_prop "signature" att = Return (VStr signature)
         /\ fst (@verifyAttestation (Sample.platform Scenario.all_up) att [])
            = Return (VObj [("valid", VBool true);
                            ("signer", VStr "0xValidator");
                            ("isApprovedValidator", VBool true)]).
Proof.
  do 2 eexists. split; [cbv; reflexivity|].
  destruct (@signed_attestation_verifies (Sample.platform Scenario.all_up)
              Sample.position "restake" 2000%float [] _ _ "0xkey"
              eq_refl eq_refl eq_refl)
    as (units & digest & signature & _ & _ & Hin & Hs & Hv).
  exists digest, signature. split; [exact Hin|]. split; [exact Hs|].
  reflexivity.
Defined.

Lemma unsigned_attestation_is_refused_witness :
  exists att tr',
    @generateAttestation Sample.quiet_platform
      Sample.position "restake" 2000 [] = (Return att, tr')
    /\ fst (@verifyAttestation Sample.quiet_platform att [])
       = Return (VObj [("valid", VBool false);
                       ("reason", VStr "No signature on attestation")]).
Proof.
  do 2 eexists. split; [cbv; reflexivity|].
  rewrite (proj2 (@unsigned_attestation_is_refused Sample.quiet_platform
                    Sample.position "restake" 2000%float [] _ _
                    eq_refl eq_refl)).
  reflexivity.
Defined.

(** ** The position monitor *)

Lemma substring_all (s : string) : substring 0 (String.length s) s = s.
Proof. induction s as [|c s IH]; simpl; [reflexivity|]. rewrite IH. reflexivity. Qed.

Lemma substring_append (a b : string) :
  substring (String.length a) (String.length b) (a ++ b) = b.
Proof.
  induction a as [|c a IH]; simpl; [apply substring_all|exact IH].
Qed.

Lemma index_suffix (a b : string) :
  b <> EmptyString -> index 0 b (a ++ b) <> None.
Proof.
  intros Hb H.
  apply (index_correct3 0 (String.length a) b (a ++ b) H Hb).
  - lia.
  - apply substring_append.
Qed.

Section MonitorFacts.

Import PositionMonitor.

Context {P : Platform} {O : Oracle}.

Lemma withdraw_line_recognised (i : nat) :
  is_withdraw_line (withdraw_line i) = true.
Proof.
  unfold is_withdraw_line, withdraw_line.
  destruct (index 0 _ _) eqn:E; [reflexivity|].
  exfalso. revert E. apply index_suffix. discriminate.
Qed.

(** X24: a position whose ticks lie on either side of the active band,
    below its lower bound and above its upper bound, is reported
    inactive. *)
Theorem straddling_position_inactive
    (position : Position) (currentPrice : float) :
  (lowerTick position <? fst (calculateActiveRange currentPrice))%float = true ->
  (snd (calculateActiveRange currentPrice) <? upperTick position)%float = true ->
  isPositionActive position currentPrice = false.
Proof.
  unfold isPositionActive, calculateActiveRange. cbn [fst snd].
  intros Hl Hu.
  rewrite (F64.ltb_leb_false _ _ Hl), (F64.ltb_leb_false _ _ Hu).
  rewrite andb_false_r. reflexivity.
Qed.

Lemma getCurrentPrice_run (tr : trace) :
  getCurrentPrice tr
  = let failed e :=
      (Return None,
       (tr ++ [EConsole "error" [VStr "Error fetching current price:";
                                 VStr (message e)]])%list) in
    match getPrice "ETHUSDT" with
    | Throw e => failed e
    | Return response =>
        match get_prop "price" response with
        | Throw e => failed e
        | Return price =>
            (Return (Some (parseFloat (ToString price))),
             (tr ++ [EConsole "log" [VStr "Fetched Current Price:";
                                     VNum (parseFloat (ToString price))]])%list)
        end
    end.
Proof.
  unfold getCurrentPrice. run_monad.
  destruct (getPrice "ETHUSDT") as [response|e]; [|reflexivity].
  destruct (get_prop "price" response); reflexivity.
Qed.

(** The loop returns, having written the lines of its positions. *)
Lemma forEach_position_lines (positions : list Position) (currentPrice : float) :
  forall (i : nat) (tr : trace),
    forEach_position positions i currentPrice tr
    = (Return tt, (tr ++ position_log i positions currentPrice)%list).
Proof.
  induction positions as [|position rest IH]; intros i tr.
  - unfold position_log. simpl. rewrite app_nil_r. reflexivity.
  - cbn [forEach_position]. run_monad.
    unfold position_log. cbn [length seq combine map concat].
    fold (position_log (S i) rest currentPrice).
    destruct (isPositionActive position currentPrice); cbn [negb];
      rewrite IH, <- ?app_assoc; reflexivity.
Qed.

(** Among the lines of the positions, the withdrawal lines are as many as
    the positions that are not active, and the lines as many as the
    positions and those together. *)
Lemma position_log_count (positions : list Position) (currentPrice : float) :
  forall i : nat,
    length (filter is_withdraw_line (position_log i positions currentPrice))
    = length (filter (fun p => negb (isPositionActive p currentPrice))
                positions)
    /\ length (position_log i positions currentPrice)
       = length positions
         + length (filter (fun p => negb (isPositionActive p currentPrice))
                     positions).
Proof.
  induction positions as [|position rest IH]; intros i.
  - split; reflexivity.
  - unfold position_log. cbn [length seq combine map concat].
    fold (position_log (S i) rest currentPrice).
    destruct (IH (S i)) as [Hw Hl].
    cbn [filter].
    destruct (isPositionActive position currentPrice); cbn [negb app filter].
    + change (is_withdraw_line (position_line position i true)) with false.
      cbv iota. cbn [length]. rewrite Hw, Hl. split; reflexivity.
    + change (is_withdraw_line (position_line position i false)) with false.
      cbv iota. rewrite withdraw_line_recognised.
      cbn [length]. rewrite Hw, Hl. split; lia.
Qed.

(** X25: [monitorLiquidityPositions] never throws. *)
Theorem monitorLiquidityPositions_returns
    (positions : list Position) (tr : trace) :
  fst (monitorLiquidityPositions positions tr) = Return tt.
Proof.
  unfold monitorLiquidityPositions, try_catch.
  match goal with
  | |- fst (match ?body with _ => _ end) = _ =>
      destruct body as [[[]|e] tr1]
  end; reflexivity.
Qed.

(** X26: a fetched price of 0 or NaN is taken for a failed fetch: after the
    line showing the price, the monitor logs "Failed to fetch current
    price" and looks at no position. *)
Theorem monitorLiquidityPositions_unusable_price
    (positions : list Position) (tr : trace) (response price : value) :
  getPrice "ETHUSDT" = Return response ->
  get_prop "price" response = Return price ->
  to_boolean (VNum (parseFloat (ToString price))) = false ->
  monitorLiquidityPositions positions tr
  = (Return tt,
     (tr ++ [EConsole "log" [VStr "Fetched Current Price:";
                             VNum (parseFloat (ToString price))];
             EConsole "error" [VStr "Error monitoring liquidity positions:";
                               VStr "Failed to fetch current price"]])%list).
Proof.
  intros Hg Hp Hz. unfold monitorLiquidityPositions, try_catch.
  unfold bind at 1. rewrite getCurrentPrice_run. cbv zeta.
  rewrite Hg, Hp, Hz. run_monad. cbn [negb message].
  rewrite <- app_assoc. reflexivity.
Qed.

(** X27: when the price source fails, its error is logged by
    [getCurrentPrice] and the monitor reports the fetch as failed; no
    position is looked at. *)
Theorem monitorLiquidityPositions_source_down
    (positions : list Position) (tr : trace) (e : error) :
  getPrice "ETHUSDT" = Throw e ->
  monitorLiquidityPositions positions tr
  = (Return tt,
     (tr ++ [EConsole "error" [VStr "Error fetching current price:";
                               VStr (message e)];
             EConsole "error" [VStr "Error monitoring liquidity positions:";
                               VStr "Failed to fetch current price"]])%list).
Proof.
  intros Hg. unfold monitorLiquidityPositions, try_catch.
  unfold bind at 1. rewrite getCurrentPrice_run. cbv zeta.
  rewrite Hg. run_monad. cbn [message]. rewrite <- app_assoc. reflexivity.
Qed.

(** X28: with a usable price, the monitor logs the price and the active
    range, then for each position in turn its status line (number, ticks,
    "Active" or "Inactive") followed, when it is not active, by its
    withdrawal line, and nothing else; so there is one status line per
    position and one withdrawal line per position that is not active. *)
Theorem monitorLiquidityPositions_lines
    (positions : list Position) (tr : trace) (response price : value) :
  getPrice "ETHUSDT" = Return response ->
  get_prop "price" response = Return price ->
  let currentPrice := parseFloat (ToString price) in
  to_boolean (VNum currentPrice) = true ->
  monitorLiquidityPositions positions tr
  = (Return tt,
     (tr ++ [EConsole "log" [VStr "Fetched Current Price:";
                             VNum currentPrice];
             EConsole "log" [VStr "Active Range:";
                             VNum (currentPrice * 0.7)%float; VStr "-";
                             VNum (currentPrice * 1.3)%float]]
         ++ position_log 0 positions currentPrice)%list)
  /\ length (filter is_withdraw_line (position_log 0 positions currentPrice))
     = length (filter (fun p => negb (isPositionActive p currentPrice))
                 positions)
  /\ length (position_log 0 positions currentPrice)
     = length positions
       + length (filter (fun p => negb (isPositionActive p currentPrice))
                   positions).
Proof.
  intros Hg Hp currentPrice Hz.
  split; [|apply position_log_count].
  unfold monitorLiquidityPositions, try_catch.
  unfold bind at 1. rewrite getCurrentPrice_run. cbv zeta.
  rewrite Hg, Hp. fold currentPrice. rewrite Hz. cbn [negb].
  unfold calculateActiveRange. unfold bind at 1. unfold console, emit.
  rewrite forEach_position_lines, <- !app_assoc. reflexivity.
Qed.

End MonitorFacts.

Lemma straddling_position_inactive_witness :
  (1000 <? fst (PositionMonitor.calculateActiveRange 2000))%float = true
  /\ (snd (PositionMonitor.calculateActiveRange 2000) <? 3000)%float = true
  /\ PositionMonitor.isPositionActive
       {| id := "0x05"; owner := "0xOwner"; lowerTick := 1000;
          upperTick := 3000; isRestaked := false;
          lastActiveTimestamp := 0 |} 2000
     = false.
Proof.
  split; [reflexivity|]. split; [reflexivity|].
  apply (straddling_position_inactive
           {| id := "0x05"; owner := "0xOwner"; lowerTick := 1000;
              upperTick := 3000; isRestaked := false;
              lastActiveTimestamp := 0 |} 2000%float);
    reflexivity.
Defined.

(** Binance quotes "0". *)
Lemma monitorLiquidityPositions_unusable_price_witness :
  @PositionMonitor.monitorLiquidityPositions
    Sample.quiet_platform (Scenario.binance "0")
    PositionMonitor.positions []
  = (Return tt,
     [EConsole "log" [VStr "Fetched Current Price:"; VNum 0];
      EConsole "error" [VStr "Error monitoring liquidity positions:";
                        VStr "Failed to fetch current price"]]).
Proof.
  apply (@monitorLiquidityPositions_unusable_price
           Sample.quiet_platform (Scenario.binance "0")
           PositionMonitor.positions []
           (VObj [("price", VStr "0")]) (VStr "0"));
    reflexivity.
Defined.

Lemma monitorLiquidityPositions_source_down_witness :
  @PositionMonitor.monitorLiquidityPositions
    Sample.quiet_platform Scenario.binance_down
    PositionMonitor.positions []
  = (Return tt,
     [EConsole "error" [VStr "Error fetching current price:";
                        VStr "Request failed with status code 451"];
      EConsole "error" [VStr "Error monitoring liquidity positions:";
                        VStr "Failed to fetch current price"]]).
Proof.
  apply (@monitorLiquidityPositions_source_down
           Sample.quiet_platform Scenario.binance_down
           PositionMonitor.positions []
           (Error "Request failed with status code 451")).
  reflexivity.
Defined.

(** Binance quotes "1000": the band is 700..1300 and both example positions
    are out of it. *)
Lemma monitorLiquidityPositions_lines_witness :
  to_boolean (VNum (@parseFloat Sample.quiet_platform "1000")) = true
  /\ snd (@PositionMonitor.monitorLiquidityPositions
            Sample.quiet_platform (Scenario.binance "1000")
            PositionMonitor.positions [])
     = [EConsole "log" [VStr "Fetched Current Price:"; VNum 1000];
        EConsole "log" [VStr "Active Range:"; VNum (1000 * 0.7)%float;
                        VStr "-"; VNum (1000 * 1.3)%float];
        EConsole "log"
          [VStr "Position 1:";
           VObj [("lowerTick", VNum 1500); ("upperTick", VNum 2000);
                 ("isActive", VStr "Inactive")]];
        EConsole "log" [VStr "Position 1 is inactive. Withdrawing liquidity..."];
        EConsole "log"
          [VStr "Position 2:";
           VObj [("lowerTick", VNum 2500); ("upperTick", VNum 3000);
                 ("isActive", VStr "Inactive")]];
        EConsole "log" [VStr "Position 2 is inactive. Withdrawing liquidity..."]].
Proof.
  split; [reflexivity|].
  rewrite (proj1 (@monitorLiquidityPositions_lines
                    Sample.quiet_platform (Scenario.binance "1000")
                    PositionMonitor.positions []
                    (VObj [("price", VStr "1000")]) (VStr "1000")
                    eq_refl eq_refl eq_refl)).
  reflexivity.
Defined.
